(** * Chicago Crime Intel dashboard ([apps/dashboard/app.py])

    A shallow embedding of the data pipeline of the dashboard script:
    archive discovery, CSV extraction, column derivation, the filter
    masks, the tables handed to the presentation layer, and the
    top-to-bottom control flow of the script itself.

    Conventions.
    - A pandas table is a list of rows; a row is a finite map from column
      names to cells, so a column assignment [df[c] = ...] is an insertion
      at key [c] in every row.
    - Python names live in a store ([globals]); tables are heap objects
      reached through references, so rebinding and aliasing are visible.
    - Exceptions and Streamlit's stop/rerun signals are results of the
      [M] monad in which the script body is written. *)

From stdpp Require Import gmap strings list fin_maps pretty sorting.
From Stdlib Require Import ZArith QArith Lia.

Open Scope string_scope.
Open Scope Z_scope.

(* ===================================================================== *)
(** * 1. Cells, rows, tables *)
(* ===================================================================== *)

(** A pandas [Timestamp]: nanoseconds since 1970-01-01T00:00:00. *)
Record Timestamp := mkTimestamp { ns : Z }.

(** One cell of a table.  [NaN] is the missing marker pandas puts in an
    empty CSV field ([NaT] for a missing date). *)
Inductive value :=
  | NaN
  | Str (s : string)
  | Int (z : Z)
  | Bool (b : bool)
  | Float (q : Q)
  | Time (t : Timestamp).

Abbreviation Row := (gmap string value).
Abbreviation DataFrame := (list (gmap string value)).

(** [df[c]] seen from one row. *)
Definition cell (c : string) (r : Row) : value := default NaN (r !! c).

Definition notna (v : value) : bool :=
  match v with NaN => false | _ => true end.

(* ===================================================================== *)
(** * 2. Exceptions and script signals *)
(* ===================================================================== *)

Inductive exn :=
  | NameError (name : string)
  | KeyError (key : string)
  | ValueError (msg : string)
  | TypeError (msg : string)
  | IndexError (msg : string)
  | BadZipFile.

(** What ends a run of the script early: an uncaught exception,
    [st.stop()] or [st.rerun()]. *)
Inductive signal :=
  | Exception (e : exn)
  | StopScript
  | RerunScript.

Inductive result (A : Type) :=
  | Ok (a : A)
  | Abort (s : signal).
Arguments Ok {A} a.
Arguments Abort {A} s.

Definition raise {A} (e : exn) : result A := Abort (Exception e).

Definition rbind {A B} (x : result A) (f : A → result B) : result B :=
  match x with Ok a => f a | Abort s => Abort s end.

Fixpoint rmapM {A B} (f : A → result B) (l : list A) : result (list B) :=
  match l with
  | [] => Ok []
  | a :: l' => rbind (f a) (λ b, rbind (rmapM f l') (λ bs, Ok (b :: bs)))
  end.

(* ===================================================================== *)
(** * 3. The [.dt] accessors *)
(* ===================================================================== *)

Definition NS_PER_HOUR : Z := 3600000000000.
Definition NS_PER_DAY : Z := 86400000000000.

(** Days since the epoch (floor division, so dates before 1970 work). *)
Definition epoch_days (t : Timestamp) : Z := ns t / NS_PER_DAY.

(** [.dt.hour] *)
Definition dt_hour (t : Timestamp) : Z := (ns t / NS_PER_HOUR) mod 24.

(** Month of the proleptic Gregorian calendar for a day count. *)
Definition civil_month (days : Z) : Z :=
  let z := days + 719468 in
  let era := z / 146097 in
  let doe := z - era * 146097 in
  let yoe := (doe - doe / 1460 + doe / 36524 - doe / 146096) / 365 in
  let doy := doe - (365 * yoe + yoe / 4 - yoe / 100) in
  let mp := (5 * doy + 2) / 153 in
  if mp <? 10 then mp + 3 else mp - 9.

(** [.dt.month] *)
Definition dt_month (t : Timestamp) : Z := civil_month (epoch_days t).

(** The list [days] of the script (line 256); it is also the order of
    pandas' weekday numbering, Monday = 0. *)
Definition days : list string :=
  ["Monday"; "Tuesday"; "Wednesday"; "Thursday"; "Friday"; "Saturday"; "Sunday"].

(** [.dt.dayofweek]: 1970-01-01 was a Thursday. *)
Definition dt_dayofweek (t : Timestamp) : Z := (epoch_days t + 3) mod 7.

(** [.dt.day_name()] *)
Definition dt_day_name (t : Timestamp) : string :=
  default "" (days !! Z.to_nat (dt_dayofweek t)).

(* ===================================================================== *)
(** * 4. Files: the file system, zip archives, parsed CSV members *)
(* ===================================================================== *)

(** A CSV member as [pd.read_csv] sees it after tokenising and dtype
    inference: the header and one map per record. *)
Record CsvFile := mkCsv {
  header : list string;
  records : list (gmap string value)
}.

(** A zip archive: its members in central-directory order.  Names may
    repeat. *)
Record ZipFile := mkZip { entries : list (string * CsvFile) }.

(** [z.namelist()] *)
Definition namelist (z : ZipFile) : list string := (entries z).*1.

(** [z.NameToInfo]: filled in directory order, so a later member with the
    same name replaces an earlier one. *)
Definition NameToInfo (z : ZipFile) : gmap string CsvFile :=
  foldl (λ m e, <[e.1 := e.2]> m) ∅ (entries z).

(** [z.open(name)] *)
Definition z_open (z : ZipFile) (name : string) : result CsvFile :=
  match NameToInfo z !! name with
  | Some f => Ok f
  | None => raise (KeyError name)
  end.

(** What a path names. *)
Inductive file :=
  | Zip (z : ZipFile)
  | NotZip.

Abbreviation FileSystem := (gmap string file).

(** [os.path.exists] *)
Definition os_path_exists (fs : FileSystem) (p : string) : bool :=
  bool_decide (is_Some (fs !! p)).

Definition endswith_slash (d : string) : bool :=
  match reverse (String.list_ascii_of_string d) with
  | c :: _ => bool_decide (c = Ascii.ascii_of_nat 47)
  | [] => false
  end.

(** [os.path.join] for two components (posixpath). *)
Definition os_path_join (d f : string) : string :=
  if String.prefix "/" f then f
  else if bool_decide (d = "") || endswith_slash d then d ++ f
  else d ++ "/" ++ f.

(** [zipfile.ZipFile(path, 'r')] *)
Definition zipfile_open (fs : FileSystem) (p : string) : result ZipFile :=
  match fs !! p with
  | Some (Zip z) => Ok z
  | Some NotZip => raise BadZipFile
  | None => raise (ValueError "FileNotFoundError")
  end.

(** [name.endswith(suffix)] *)
Definition endswith (name suffix : string) : bool :=
  let n := String.length name in
  let k := String.length suffix in
  (k <=? n)%nat && bool_decide (String.substring (n - k)%nat k name = suffix).

(** [name.startswith(prefix)] *)
Definition startswith (name pre : string) : bool := String.prefix pre name.

(** Truthiness of an optional string ([if found_path:]). *)
Definition truthy (p : option string) : bool :=
  match p with
  | Some s => negb (bool_decide (s = ""))
  | None => false
  end.

(* ===================================================================== *)
(** * 5. [load_data] *)
(* ===================================================================== *)

(** [str(year)]; the f-strings only ever print the year this way. *)
Definition str_of_int (n : Z) : string := pretty n.

(** Line 47. *)
Definition possible_files (year : Z) : list string :=
  [ "chicago_crime_" ++ str_of_int year ++ ".csv.zip";
    "chicago_crime_" ++ str_of_int year ++ ".zip" ].

(** Line 53. *)
Definition search_dirs : list string := ["."; "split_data_by_year"].

(** The state of the search loops: the paths handed to [os.path.exists]
    so far, and the variable [found_path]. *)
Record Search := mkSearch {
  probed : list string;
  found_path : option string
}.

(** Lines 57-61: the inner loop over file names, with its [break]. *)
Fixpoint scan_files (fs : FileSystem) (d : string) (files : list string)
    (s : Search) : Search :=
  match files with
  | [] => s
  | f :: rest =>
      let test_path := os_path_join d f in
      let s' := mkSearch (probed s ++ [test_path]) (found_path s) in
      if os_path_exists fs test_path
      then mkSearch (probed s') (Some test_path)
      else scan_files fs d rest s'
  end.

(** Lines 56-62: the outer loop over directories, with its [break]. *)
Fixpoint scan_dirs (fs : FileSystem) (dirs files : list string)
    (s : Search) : Search :=
  match dirs with
  | [] => s
  | d :: rest =>
      let s' := scan_files fs d files s in
      if truthy (found_path s') then s' else scan_dirs fs rest files s'
  end.

(** Lines 47-62. *)
Definition locate (fs : FileSystem) (year : Z) : Search :=
  scan_dirs fs search_dirs (possible_files year) (mkSearch [] None).

(** Line 67. *)
Definition cols : list string :=
  ["Date"; "Primary Type"; "Description"; "Arrest"; "District";
   "Latitude"; "Longitude"; "Location Description"].

(** Line 71: the comprehension over [z.namelist()]. *)
Definition csv_files (z : ZipFile) : list string :=
  List.filter (λ name, endswith name ".csv" && negb (startswith name "__MACOSX"))
    (namelist z).

(** [pd.read_csv(f, usecols=...)]: every requested column must be in the
    header; the table keeps just the requested columns, a field a record
    lacks reads as [NaN]. *)
Definition read_csv (f : CsvFile) (usecols : list string) : result DataFrame :=
  if forallb (λ c, bool_decide (c ∈ header f)) usecols
  then Ok ((λ rec, list_to_map ((λ c, (c, cell c rec)) <$> usecols)) <$> records f)
  else raise (ValueError "Usecols do not match columns").

(** [.dt.month], [.dt.hour], [.dt.day_name()] on one cell: defined on
    timestamps, [NaN] on a missing date. *)
Definition month_cell (v : value) : value :=
  match v with Time t => Int (dt_month t) | _ => NaN end.
Definition hour_cell (v : value) : value :=
  match v with Time t => Int (dt_hour t) | _ => NaN end.
Definition day_name_cell (v : value) : value :=
  match v with Time t => Str (dt_day_name t) | _ => NaN end.

(** [df[c] = f(df)] for a column computed row by row. *)
Definition assign (c : string) (f : Row → value) (df : DataFrame) : DataFrame :=
  (λ r, <[c := f r]> r) <$> df.

Section Loader.

(** The date parser behind [pd.to_datetime]: [None] when the text is not
    a date. *)
Variable parse_datetime : string → option Timestamp.

(** [pd.to_datetime] on one cell. *)
Definition to_datetime_cell (v : value) : result value :=
  match v with
  | NaN => Ok NaN
  | Str s =>
      match parse_datetime s with
      | Some t => Ok (Time t)
      | None => raise (ValueError "Unknown datetime string format")
      end
  | Time t => Ok (Time t)
  | Int z => Ok (Time (mkTimestamp z))
  | Bool _ => raise (TypeError "bool is not convertible to datetime")
  | Float _ => raise (TypeError "float is not convertible to datetime")
  end.

(** Line 77: [df['Date'] = pd.to_datetime(df['Date'])]. *)
Definition parse_dates (df : DataFrame) : result DataFrame :=
  rmapM (λ r, rbind (to_datetime_cell (cell "Date" r))
                    (λ d, Ok (<["Date" := d]> r))) df.

(** Lines 78-80. *)
Definition derive_columns (df : DataFrame) : DataFrame :=
  assign "DayOfWeek" (λ r, day_name_cell (cell "Date" r))
    (assign "Hour" (λ r, hour_cell (cell "Date" r))
       (assign "Month_Num" (λ r, month_cell (cell "Date" r)) df)).

(** Lines 75-81: read the chosen member and derive the columns. *)
Definition read_member (z : ZipFile) (name : string) : result DataFrame :=
  rbind (z_open z name) (λ f,
  rbind (read_csv f cols) (λ df,
  rbind (parse_dates df) (λ df,
  Ok (derive_columns df)))).

(** Lines 69-76: which member is handed to [z.open], if any. *)
Definition member_read (z : ZipFile) : option string := head (csv_files z).

(** Lines 45-82.  [Ok None] is Python's [None]. *)
Definition load_data (fs : FileSystem) (year : Z) : result (option DataFrame) :=
  match found_path (locate fs year) with
  | Some p =>
      if truthy (Some p) then
        rbind (zipfile_open fs p) (λ z,
          match csv_files z with
          | name :: _ => rbind (read_member z name) (λ df, Ok (Some df))
          | [] => Ok None
          end)
      else Ok None
  | None => Ok None
  end.

End Loader.

(* ===================================================================== *)
(** * 6. The filter engine (lines 166-171) *)
(* ===================================================================== *)

(** The three options of the [Arrest Status] radio button. *)
Inductive ArrestChoice := All | Yes | No.

(** [df[c]]: a column, as the list of its cells in row order. *)
Definition column (c : string) (df : DataFrame) : list value := cell c <$> df.

(** [Series.isin] against a list of strings, and against a list of
    integers; a missing cell is in no list. *)
Definition isin_str (sel : list string) (v : value) : bool :=
  match v with Str s => bool_decide (s ∈ sel) | _ => false end.
Definition isin_int (sel : list Z) (v : value) : bool :=
  match v with Int z => bool_decide (z ∈ sel) | _ => false end.

(** [series == True] and [series == False], cell by cell. *)
Definition eq_bool (b : bool) (v : value) : bool :=
  match v with Bool b' => bool_decide (b' = b) | _ => false end.

(** [mask & other] on two aligned boolean series. *)
Definition series_and (a b : list bool) : list bool := zip_with andb a b.

(** [if xs:] on a list. *)
Definition nonempty {A} (l : list A) : bool :=
  match l with [] => false | _ => true end.

(** Lines 167-170. *)
Definition build_mask (df : DataFrame) (sel_types : list string)
    (sel_districts : list Z) (arrest : ArrestChoice) : list bool :=
  let mask := isin_str sel_types <$> column "Primary Type" df in
  let mask :=
    if nonempty sel_districts
    then series_and mask (isin_int sel_districts <$> column "District" df)
    else mask in
  let mask :=
    match arrest with
    | Yes => series_and mask (eq_bool true <$> column "Arrest" df)
    | _ => mask
    end in
  let mask :=
    match arrest with
    | No => series_and mask (eq_bool false <$> column "Arrest" df)
    | _ => mask
    end in
  mask.

(** [df[mask]]: the rows whose mask entry is [True], as a new table. *)
Definition getitem_mask (df : DataFrame) (mask : list bool) : DataFrame :=
  (filter (λ p, p.2 = true) (zip df mask)).*1.

(** Line 171 after lines 167-170. *)
Definition filtered_df (df : DataFrame) (sel_types : list string)
    (sel_districts : list Z) (arrest : ArrestChoice) : DataFrame :=
  getitem_mask df (build_mask df sel_types sel_districts arrest).

(** The row-level condition the masks encode. *)
Definition keep (sel_types : list string) (sel_districts : list Z)
    (arrest : ArrestChoice) (r : Row) : Prop :=
  (∃ t, cell "Primary Type" r = Str t ∧ t ∈ sel_types) ∧
  (sel_districts = [] ∨ ∃ d, cell "District" r = Int d ∧ d ∈ sel_districts) ∧
  (arrest = All ∨ (arrest = Yes ∧ cell "Arrest" r = Bool true)
               ∨ (arrest = No ∧ cell "Arrest" r = Bool false)).

(* ===================================================================== *)
(** * 7. Tables behind the presentation layer *)
(* ===================================================================== *)

(** ** Series helpers *)

Definition strs (l : list value) : list string :=
  omap (λ v, match v with Str s => Some s | _ => None end) l.
Definition ints (l : list value) : list Z :=
  omap (λ v, match v with Int z => Some z | _ => None end) l.
Definition bools (l : list value) : list bool :=
  omap (λ v, match v with Bool b => Some b | _ => None end) l.

Definition str_le (a b : string) : Prop := String.leb a b = true.
Definition count_desc (a b : string * nat) : Prop := (b.2 ≤ a.2)%nat.

Definition key_le (a b : Z * nat) : Prop := a.1 ≤ b.1.

#[global] Instance key_le_dec : RelDecision key_le :=
  λ a b, decide (a.1 ≤ b.1).
#[global] Instance str_le_dec : RelDecision str_le :=
  λ a b, decide (String.leb a b = true).
#[global] Instance count_desc_dec : RelDecision count_desc :=
  λ a b, decide (b.2 ≤ a.2)%nat.

Section Mode.
Context {A : Type} `{EqDecision A}.
Context (le : relation A) `{∀ x y, Decision (le x y)}.

Definition count_of (x : A) (l : list A) : nat :=
  length (filter (λ y, y = x) l).

(** [Series.mode()] on the non-missing values [l] of a column: the
    values of highest frequency, ascending; empty when [l] is. *)
Definition mode (l : list A) : list A :=
  let m := max_list ((λ x, count_of x l) <$> l) in
  merge_sort le (remove_dups (filter (λ x, count_of x l = m) l)).
End Mode.

(** [s[0]] on the result of [mode()], whose index is 0, 1, ... *)
Definition getitem0 {A} (s : list A) : result A :=
  match s with
  | x :: _ => Ok x
  | [] => raise (KeyError "0")
  end.

(** [len(df)] *)
Definition len (df : DataFrame) : Z := Z.of_nat (length df).

(** [df.empty] *)
Definition empty (df : DataFrame) : bool :=
  match df with [] => true | _ => false end.

(** Line 193. *)
Definition top_location (fdf : DataFrame) : result value :=
  if negb (empty fdf)
  then rbind (getitem0 (mode str_le (strs (column "Location Description" fdf))))
             (λ s, Ok (Str s))
  else Ok (Str "N/A").

(** Line 196. *)
Definition peak_hour (fdf : DataFrame) : result value :=
  if negb (empty fdf)
  then rbind (getitem0 (mode Z.le (ints (column "Hour" fdf)))) (λ h, Ok (Int h))
  else Ok (Str "N/A").

(** [loc[:15]]; positions are bytes here and characters in Python, the
    same thing for ASCII text. *)
Definition slice15 (v : value) : result string :=
  match v with
  | Str s => Ok (String.substring 0 15 s)
  | _ => raise (TypeError "object is not subscriptable")
  end.

(** [f"{v}"] *)
Definition format_value (v : value) : string :=
  match v with
  | Str s => s
  | Int z => str_of_int z
  | Bool true => "True"
  | Bool false => "False"
  | NaN => "nan"
  | Float _ => "<float>"
  | Time _ => "<timestamp>"
  end.

(** [Series.mean()] of the Arrest column: the share of [True] among the
    present entries, nothing for an empty series. *)
Definition arrest_mean (fdf : DataFrame) : option Q :=
  let bs := bools (column "Arrest" fdf) in
  match bs with
  | [] => None
  | _ => Some (Z.of_nat (length (filter (λ b, b = true) bs)) # Pos.of_nat (length bs))
  end.

(** Digit grouping of [f"{n:,}"], on the reversed digits. *)
Fixpoint group3 (fuel : nat) (ds : list Ascii.ascii) : list Ascii.ascii :=
  match fuel, ds with
  | S fuel', a :: b :: c :: (_ :: _) as rest =>
      a :: b :: c :: Ascii.ascii_of_nat 44 :: group3 fuel' rest
  | _, _ => ds
  end.

(** [f"{n:,}"] for a length. *)
Definition commas (n : Z) : string :=
  let ds := reverse (String.list_ascii_of_string (str_of_int n)) in
  String.string_of_list_ascii (reverse (group3 (length ds) ds)).

(** ** The map layer (lines 206-211) *)

(** [df.dropna(subset=...)] *)
Definition dropna (subset : list string) (df : DataFrame) : DataFrame :=
  filter (λ r, forallb (λ c, notna (cell c r)) subset = true) df.

(** The generator behind [DataFrame.sample]: [choice rs N n] is what
    [random_state.choice(N, size=n, replace=False)] returns when
    [n <= N]: [n] distinct positions below [N]. *)
Record RandomState := mkRandomState {
  choice : nat → nat → list nat;
  choice_length : ∀ N n, (n ≤ N)%nat → length (choice N n) = n;
  choice_NoDup : ∀ N n, (n ≤ N)%nat → NoDup (choice N n);
  choice_bound : ∀ N n i, (n ≤ N)%nat → i ∈ choice N n → (i < N)%nat
}.

(** [df.sample(n)] *)
Definition sample (rs : RandomState) (n : Z) (df : DataFrame) : result DataFrame :=
  if n <? 0
  then raise (ValueError "A negative number of rows requested")
  else if len df <? n
  then raise (ValueError "Cannot take a larger sample than population")
  else Ok (omap (λ i, df !! i) (choice rs (length df) (Z.to_nat n))).

(** Lines 209-210: the constant of the sampling guard. *)
Definition MAP_POINTS : Z := 20000.

(** Line 211. *)
Definition sample_caption (fdf : DataFrame) : string :=
  "⚠️ Displaying random 20,000 points (out of " ++ str_of_int (len fdf)
  ++ ") for performance.".

(** Lines 207-211: the table given to the scatter layer and the caption,
    if one is shown. *)
Definition map_stage (rs : RandomState) (fdf : DataFrame)
    : result (DataFrame * option string) :=
  let map_data := dropna ["Latitude"; "Longitude"] fdf in
  if len map_data >? MAP_POINTS
  then rbind (sample rs MAP_POINTS map_data)
             (λ s, Ok (s, Some (sample_caption fdf)))
  else Ok (map_data, None).

(** ** Grouped counts *)

(** [df.groupby(keys).size()]: rows whose key has a missing part are
    left out. *)
Definition groupby_size `{Countable K} (key : Row → option K)
    (df : DataFrame) : gmap K nat :=
  foldr (λ r m, match key r with
                | Some k => <[k := S (default 0%nat (m !! k))]> m
                | None => m
                end) ∅ df.

Definition int_key (c : string) (r : Row) : option Z :=
  match cell c r with Int z => Some z | _ => None end.
Definition str_key (c : string) (r : Row) : option string :=
  match cell c r with Str s => Some s | _ => None end.
Definition day_hour_key (r : Row) : option (string * Z) :=
  match cell "DayOfWeek" r, cell "Hour" r with
  | Str d, Int h => Some (d, h)
  | _, _ => None
  end.

(** ** Monthly trend (lines 239-241) *)

(** [calendar.month_abbr] *)
Definition month_abbr : list string :=
  [""; "Jan"; "Feb"; "Mar"; "Apr"; "May"; "Jun";
   "Jul"; "Aug"; "Sep"; "Oct"; "Nov"; "Dec"].

(** [xs[i]] for a Python sequence and an integer index. *)
Definition py_index {A} (l : list A) (i : Z) : result A :=
  let n := Z.of_nat (length l) in
  let j := if i <? 0 then i + n else i in
  match (if (0 <=? j) && (j <? n) then l !! Z.to_nat j else None) with
  | Some x => Ok x
  | None => raise (IndexError "index out of range")
  end.

Definition trend (fdf : DataFrame) : result DataFrame :=
  let g := groupby_size (int_key "Month_Num") fdf in
  rmapM (λ mc : Z * nat,
           rbind (py_index month_abbr mc.1)
                 (λ a, Ok ({[ "Month_Num" := Int mc.1;
                              "Count" := Int (Z.of_nat mc.2);
                              "Month" := Str a ]} : Row)))
        (merge_sort key_le (map_to_list g)).

(** ** Crime types (lines 246-247) *)

(** [value_counts().head(5)]: counts in descending order; values are
    taken in order of first appearance and the sort is stable. *)
Definition top (fdf : DataFrame) : DataFrame :=
  let vals := strs (column "Primary Type" fdf) in
  let counted := (λ s, (s, count_of s vals)) <$> remove_dups vals in
  (λ sc : string * nat,
     ({[ "Type" := Str sc.1; "Count" := Int (Z.of_nat sc.2) ]} : Row))
  <$> take 5 (merge_sort count_desc counted).

(** ** Hourly heatmap (lines 255-261) *)

(** [pd.MultiIndex.from_product([days, range(24)])] *)
Definition full_idx : list (string * Z) :=
  d ← days; h ← seqZ 0 24; [(d, h)].

(** The grouped counts of line 255, as the series indexed by
    (DayOfWeek, Hour) that [set_index] rebuilds on line 261. *)
Definition heat_counts (fdf : DataFrame) : gmap (string * Z) nat :=
  groupby_size day_hour_key fdf.

Definition heat_row (k : string * Z) (c : nat) : Row :=
  {[ "DayOfWeek" := Str k.1; "Hour" := Int k.2; "Counts" := Int (Z.of_nat c) ]}.

(** [.reindex(full_idx, fill_value=0).reset_index()] *)
Definition reindex (g : gmap (string * Z) nat) (idx : list (string * Z)) : DataFrame :=
  (λ k, heat_row k (default 0%nat (g !! k))) <$> idx.

(** Lines 255-261. *)
Definition heat (fdf : DataFrame) : DataFrame :=
  reindex (heat_counts fdf) full_idx.

(* ===================================================================== *)
(** * 8. The script: store, heap, output, control signals *)
(* ===================================================================== *)

(** Heap objects: the mutable pandas objects the script holds. *)
Inductive obj :=
  | ODataFrame (d : DataFrame)
  | OSeries (m : list bool).

(** What a Python name of the script can be bound to. *)
Inductive pyval :=
  | PNone
  | PRef (l : nat)
  | PInt (z : Z)
  | PStrs (l : list string)
  | PInts (l : list Z)
  | PChoice (a : ArrestChoice).

(** The value shown by a metric card: a string, or the arrest rate
    [f"{(mean*100):.1f}%"], kept as the mean it formats ([None] is the
    mean of an empty series, printed as nan). *)
Inductive card_value :=
  | Text (s : string)
  | Percent (mean : option Q).

(** The calls into the presentation layer, in the order they are made.
    Static HTML and layout arguments are left out. *)
Inductive event :=
  | PageConfig
  | Markdown
  | Divider
  | Title (s : string)
  | Subheader (s : string)
  | Caption (s : string)
  | Error (s : string)
  | Info (s : string)
  | Success (s : string)
  | Warning (s : string)
  | Widget (label : string)
  | MetricCard (title : string) (v : card_value) (sub color : string)
  | PydeckChart (data : DataFrame)
  | AreaChart (data : DataFrame)
  | BarChart (data : DataFrame)
  | HeatmapChart (data : DataFrame).

(** [st.session_state]; a key may be absent. *)
Record Session := mkSession {
  app_mode : option string;
  selected_year : option Z
}.

Record State := mkState {
  globals : gmap string pyval;
  heap : gmap nat obj;
  session : Session;
  out : list event
}.

(** What the user and the environment supply during one run. *)
Record Inputs := mkInputs {
  back_clicked : bool;
  launch_clicked : bool;
  slider_choice : option Z;
  ui_sel_types : list string;
  ui_sel_districts : list Z;
  ui_arrest : ArrestChoice;
  rng : RandomState
}.

Definition M (A : Type) : Type := State → result A * State.

Definition ret {A} (a : A) : M A := λ σ, (Ok a, σ).

Definition bind {A B} (m : M A) (k : A → M B) : M B :=
  λ σ, match m σ with
       | (Ok a, σ') => k a σ'
       | (Abort s, σ') => (Abort s, σ')
       end.

Notation "'let*' x ':=' m 'in' k" := (bind m (λ x, k))
  (at level 10, x pattern, m at level 100, k at level 200).
Notation "m ';;' k" := (bind m (λ _, k))
  (at level 100, k at level 200, right associativity).

Definition lift {A} (r : result A) : M A := λ σ, (r, σ).

Definition throw {A} (e : exn) : M A := lift (raise e).

(** [st.stop()] and [st.rerun()] *)
Definition st_stop {A} : M A := lift (Abort StopScript).
Definition st_rerun {A} : M A := lift (Abort RerunScript).

Definition emit (e : event) : M unit :=
  λ σ, (Ok tt, mkState (globals σ) (heap σ) (session σ) (out σ ++ [e])).

(** Reading a name: [NameError] when it is not bound. *)
Definition read_name (x : string) : M pyval :=
  λ σ, match globals σ !! x with
       | Some v => (Ok v, σ)
       | None => (raise (NameError x), σ)
       end.

(** [x = v] *)
Definition assign_name (x : string) (v : pyval) : M unit :=
  λ σ, (Ok tt, mkState (<[x := v]> (globals σ)) (heap σ) (session σ) (out σ)).

(** A new object, at an address not in use. *)
Definition alloc (o : obj) : M nat :=
  λ σ, let l := fresh (dom (heap σ)) in
       (Ok l, mkState (globals σ) (<[l := o]> (heap σ)) (session σ) (out σ)).

Definition deref (l : nat) : M obj :=
  λ σ, match heap σ !! l with
       | Some o => (Ok o, σ)
       | None => (raise (ValueError "dangling reference"), σ)
       end.

Definition get_session : M Session := λ σ, (Ok (session σ), σ).

Definition set_session (s : Session) : M unit :=
  λ σ, (Ok tt, mkState (globals σ) (heap σ) s (out σ)).

(** A name bound to a table, a series, a list, ... *)
Definition read_df (x : string) : M DataFrame :=
  let* v := read_name x in
  match v with
  | PRef l =>
      let* o := deref l in
      match o with
      | ODataFrame d => ret d
      | OSeries _ => throw (TypeError "not a DataFrame")
      end
  | _ => throw (TypeError "not a DataFrame")
  end.

Definition read_series (x : string) : M (list bool) :=
  let* v := read_name x in
  match v with
  | PRef l =>
      let* o := deref l in
      match o with
      | OSeries m => ret m
      | ODataFrame _ => throw (TypeError "not a Series")
      end
  | _ => throw (TypeError "not a Series")
  end.

Definition read_strs (x : string) : M (list string) :=
  let* v := read_name x in
  match v with PStrs l => ret l | _ => throw (TypeError "not a list of str") end.

Definition read_ints (x : string) : M (list Z) :=
  let* v := read_name x in
  match v with PInts l => ret l | _ => throw (TypeError "not a list of int") end.

Definition read_choice (x : string) : M ArrestChoice :=
  let* v := read_name x in
  match v with PChoice a => ret a | _ => throw (TypeError "not a radio option") end.

(** [x = <new series>] *)
Definition assign_series (x : string) (m : list bool) : M unit :=
  let* l := alloc (OSeries m) in assign_name x (PRef l).

(** [x = <new table>] *)
Definition assign_df (x : string) (d : DataFrame) : M unit :=
  let* l := alloc (ODataFrame d) in assign_name x (PRef l).

(** [f"{v}"] for a bound value. *)
Definition format_pyval (v : pyval) : string :=
  match v with
  | PInt z => str_of_int z
  | PNone => "None"
  | _ => "<object>"
  end.

(* ===================================================================== *)
(** * 9. The script, top to bottom *)
(* ===================================================================== *)

(** Lines 17-20. *)
Definition init_session : M unit :=
  let* s := get_session in
  let s := match app_mode s with
           | None => mkSession (Some "Welcome") (selected_year s)
           | Some _ => s
           end in
  let s := match selected_year s with
           | None => mkSession (app_mode s) (Some 2024)
           | Some _ => s
           end in
  set_session s.

(** Lines 84-87: the module-level test of [df]. *)
Definition guard_loaded : M unit :=
  let* v := read_name "df" in
  let* missing :=
    match v with
    | PNone => ret true
    | PRef l =>
        let* o := deref l in
        match o with
        | ODataFrame d => ret (empty d)
        | OSeries m => ret (negb (nonempty m))
        end
    | _ => throw (TypeError "object has no attribute empty")
    end in
  if (missing : bool) then
    let* y := read_name "selected_year" in
    emit (Error ("❌ 没找到 " ++ format_pyval y ++ " 年的数据文件！"));;
    emit (Info "💡 请确认 GitHub 仓库根目录或 split_data_by_year 文件夹下有对应的 .zip 文件。");;
    st_stop
  else ret tt.

(** Line 90. *)
Definition report_loaded : M unit :=
  let* d := read_df "df" in
  emit (Success ("✅ 成功加载 " ++ str_of_int (len d) ++ " 条记录")).

(** Lines 167-171, statement by statement. *)
Definition filter_block : M unit :=
  let* df := read_df "df" in
  let* sel_types := read_strs "sel_types" in
  assign_series "mask" (isin_str sel_types <$> column "Primary Type" df);;
  let* sel_districts := read_ints "sel_districts" in
  (if nonempty sel_districts then
     let* mask := read_series "mask" in
     let* df := read_df "df" in
     assign_series "mask"
       (series_and mask (isin_int sel_districts <$> column "District" df))
   else ret tt);;
  let* arrest := read_choice "arrest" in
  (match arrest with
   | Yes =>
       let* mask := read_series "mask" in
       let* df := read_df "df" in
       assign_series "mask" (series_and mask (eq_bool true <$> column "Arrest" df))
   | _ => ret tt
   end);;
  let* arrest := read_choice "arrest" in
  (match arrest with
   | No =>
       let* mask := read_series "mask" in
       let* df := read_df "df" in
       assign_series "mask" (series_and mask (eq_bool false <$> column "Arrest" df))
   | _ => ret tt
   end);;
  let* df := read_df "df" in
  let* mask := read_series "mask" in
  assign_df "filtered_df" (getitem_mask df mask).

(** Lines 189-197. *)
Definition metric_cards : M unit :=
  let* fdf := read_df "filtered_df" in
  emit (MetricCard "Total Incidents" (Text (commas (len fdf))) "Volume" "#3b82f6");;
  emit (MetricCard "Arrest Rate" (Percent (arrest_mean fdf)) "Efficiency" "#10b981");;
  let* loc := lift (top_location fdf) in
  let* short := lift (slice15 loc) in
  emit (MetricCard "Top Location" (Text (short ++ "...")) "Risk Zone" "#f59e0b");;
  let* hour := lift (peak_hour fdf) in
  emit (MetricCard "Peak Hour" (Text (format_value hour ++ ":00")) "High Alert" "#ef4444").

(** Lines 204-234. *)
Definition map_panel (ui : Inputs) : M unit :=
  emit (Subheader "📍 Spatial Distribution");;
  let* fdf := read_df "filtered_df" in
  if negb (empty fdf) then
    let* mc := lift (map_stage (rng ui) fdf) in
    (match mc.2 with
     | Some c => emit (Caption c)
     | None => ret tt
     end);;
    emit (PydeckChart mc.1)
  else emit (Warning "No data available for map.").

(** Lines 236-248. *)
Definition chart_panel : M unit :=
  emit (Subheader "📈 Monthly Trend");;
  let* fdf := read_df "filtered_df" in
  (if negb (empty fdf) then
     let* t := lift (trend fdf) in emit (AreaChart t)
   else ret tt);;
  emit (Subheader "📊 Crime Types");;
  let* fdf := read_df "filtered_df" in
  if negb (empty fdf) then emit (BarChart (top fdf)) else ret tt.

(** Lines 250-293. *)
Definition heatmap_panel : M unit :=
  emit Markdown;;
  emit (Subheader "🗓️ Temporal Heatmap (Hourly Detail)");;
  let* fdf := read_df "filtered_df" in
  if negb (empty fdf) then emit (HeatmapChart (heat fdf))
  else emit (Info "No data available to generate heatmap.").

(** Lines 173-293: everything the dashboard renders from the filtered
    view. *)
Definition components (ui : Inputs) : M unit :=
  let* year := read_name "year" in
  let* sel_types := read_strs "sel_types" in
  let* fdf := read_df "filtered_df" in
  emit (Title ("Chicago Crime Intelligence: " ++ format_pyval year));;
  emit (Caption ("Active Filters: " ++ pretty (length sel_types)
                 ++ " Types | Records: " ++ commas (len fdf)));;
  metric_cards;;
  emit Markdown;;
  map_panel ui;;
  chart_panel;;
  heatmap_panel.

(** Lines 112-115. *)
Definition available_years (fs : FileSystem) : list Z :=
  let found :=
    List.filter (λ y,
      os_path_exists fs ("split_data_by_year/chicago_crime_" ++ str_of_int y ++ ".csv")
      || os_path_exists fs ("chicago_crime_" ++ str_of_int y ++ ".csv"))
      (seqZ 2014 11) in
  if nonempty found then found else [2024].

(** Lines 94-127. *)
Definition welcome (fs : FileSystem) (ui : Inputs) : M unit :=
  emit Markdown;;
  emit Markdown;;
  emit Markdown;;
  let years := available_years fs in
  let options := merge_sort Z.le years in
  emit Markdown;;
  emit (Widget "Select Year");;
  let chosen_year :=
    match slider_choice ui with
    | Some y => if bool_decide (y ∈ options) then y else default 2024 (last years)
    | None => default 2024 (last years)
    end in
  emit Markdown;;
  emit (Widget ("🚀 Launch Dashboard (" ++ str_of_int chosen_year ++ ")"));;
  (if launch_clicked ui then
     set_session (mkSession (Some "Dashboard") (Some chosen_year));;
     st_rerun
   else ret tt);;
  emit Markdown.

Section Script.

Variable parse_datetime : string → option Timestamp.

(** Lines 135-164: the sidebar, where the table is loaded and the filter
    widgets are read.  [st.cache_data] hands out a copy of the cached
    table on every call, hence a new heap object. *)
Definition sidebar (fs : FileSystem) (ui : Inputs) : M unit :=
  let* s := get_session in
  let* year :=
    match selected_year s with
    | Some y => ret y
    | None => throw (KeyError "selected_year")
    end in
  assign_name "year" (PInt year);;
  emit (Widget "← Back to Home");;
  (if back_clicked ui then
     let* s := get_session in
     set_session (mkSession (Some "Welcome") (selected_year s));;
     st_rerun
   else ret tt);;
  emit Divider;;
  emit (Title ("🎛️ Controls (" ++ str_of_int year ++ ")"));;
  let* loaded := lift (load_data parse_datetime fs year) in
  (match loaded with
   | Some d => assign_df "df" d
   | None => assign_name "df" PNone
   end);;
  let* v := read_name "df" in
  match v with
  | PNone =>
      emit (Error ("Data for " ++ str_of_int year ++ " not found."));;
      st_stop
  | _ =>
      let* d := read_df "df" in
      emit (Success ("Data: " ++ commas (len d) ++ " rows"));;
      emit (Widget "Filter Type");;
      assign_name "sel_types" (PStrs (ui_sel_types ui));;
      emit (Widget "Police District (Optional)");;
      assign_name "sel_districts" (PInts (ui_sel_districts ui));;
      emit (Widget "Arrest Status");;
      assign_name "arrest" (PChoice (ui_arrest ui))
  end.

(** Lines 133-293. *)
Definition dashboard (fs : FileSystem) (ui : Inputs) : M unit :=
  sidebar fs ui;;
  filter_block;;
  components ui.

(** The whole file. *)
Definition script (fs : FileSystem) (ui : Inputs) : M unit :=
  emit PageConfig;;
  init_session;;
  emit Markdown;;
  guard_loaded;;
  report_loaded;;
  let* s := get_session in
  if bool_decide (app_mode s = Some "Welcome") then welcome fs ui
  else if bool_decide (app_mode s = Some "Dashboard") then dashboard fs ui
  else ret tt.

(** One run: Streamlit executes the file in a fresh module namespace, so
    no name is bound at the start. *)
Definition run_script (fs : FileSystem) (ui : Inputs) (s : Session)
    : result unit * State :=
  script fs ui (mkState ∅ ∅ s []).

End Script.

(* ===================================================================== *)
(** * 10. Sample data *)
(* ===================================================================== *)

Module Sample.

(** 2024-01-01 13:00:00, a Monday. *)
Definition noon : Timestamp :=
  mkTimestamp (19723 * NS_PER_DAY + 13 * NS_PER_HOUR).

(** A parser that knows one date. *)
Definition parse (s : string) : option Timestamp :=
  if bool_decide (s = "01/01/2024 01:00:00 PM") then Some noon else None.

(** A generator that always draws the first positions. *)
Definition first_positions : RandomState :=
  mkRandomState (λ N n, seq 0 n)
    (λ N n _, length_seq n 0%nat)
    (λ N n _, NoDup_seq 0%nat n)
    (λ N n i Hn Hi, ltac:(apply elem_of_seq in Hi; lia)).

Definition theft : gmap string value :=
  {[ "Date" := Str "01/01/2024 01:00:00 PM";
     "Primary Type" := Str "THEFT";
     "Description" := Str "OVER $500";
     "Arrest" := Bool true;
     "District" := Int 12;
     "Latitude" := Float (4185 # 100);
     "Longitude" := Float (-8765 # 100);
     "Location Description" := Str "STREET" ]}.

(** The same incident without coordinates and without a location text. *)
Definition theft_unplaced : gmap string value :=
  {[ "Date" := Str "01/01/2024 01:00:00 PM";
     "Primary Type" := Str "THEFT";
     "Description" := Str "OVER $500";
     "Arrest" := Bool false;
     "District" := NaN;
     "Latitude" := NaN;
     "Longitude" := NaN;
     "Location Description" := NaN ]}.

Definition csv : CsvFile := mkCsv ("ID" :: cols) [theft; theft_unplaced].

Definition archive : ZipFile :=
  mkZip [ ("__MACOSX/._chicago_crime_2024.csv", mkCsv [] []);
          ("README.txt", mkCsv [] []);
          ("chicago_crime_2024.csv", csv);
          ("extra.csv", mkCsv cols []) ].

Definition disk : gmap string file :=
  {[ "split_data_by_year/chicago_crime_2024.zip" := Zip archive ]}.

(** The two rows as [load_data] returns them. *)
Definition loaded_theft : gmap string value :=
  <["DayOfWeek" := Str "Monday"]> (<["Hour" := Int 13]> (<["Month_Num" := Int 1]>
    (<["Date" := Time noon]> theft))).
Definition loaded_unplaced : gmap string value :=
  <["DayOfWeek" := Str "Monday"]> (<["Hour" := Int 13]> (<["Month_Num" := Int 1]>
    (<["Date" := Time noon]> theft_unplaced))).

Definition table : list (gmap string value) := [loaded_theft; loaded_unplaced].

Definition inputs : Inputs :=
  mkInputs false false None ["THEFT"] [] All first_positions.

(** A session that has already chosen the dashboard for 2024. *)
Definition on_dashboard : Session := mkSession (Some "Dashboard") (Some 2024).

(** A store in which the sidebar has run: [df] is bound to [table]. *)
Definition after_sidebar : State :=
  mkState {[ "df" := PRef 0%nat; "year" := PInt 2024;
             "sel_types" := PStrs ["THEFT"]; "sel_districts" := PInts [];
             "arrest" := PChoice All ]}
          {[ 0%nat := ODataFrame table ]} on_dashboard [].

(** The store after the filter block: [filtered_df] is bound as well. *)
Definition after_filter : State := (filter_block after_sidebar).2.

(** A view whose only row has no location text, and a store holding it. *)
Definition unplaced_view : list (gmap string value) := [loaded_unplaced].
Definition unplaced_store : State :=
  mkState {[ "filtered_df" := PRef 0%nat; "year" := PInt 2024;
             "sel_types" := PStrs ["THEFT"] ]}
          {[ 0%nat := ODataFrame unplaced_view ]} on_dashboard [].

(** A disk whose 2024 archive holds that one incident. *)
Definition unplaced_disk : gmap string file :=
  {[ "./chicago_crime_2024.csv.zip" :=
       Zip (mkZip [("chicago_crime_2024.csv", mkCsv cols [theft_unplaced])]) ]}.

(** A disk whose 2024 archive holds a CSV with a header and no record. *)
Definition blank_disk : gmap string file :=
  {[ "./chicago_crime_2024.csv.zip" :=
       Zip (mkZip [("chicago_crime_2024.csv", mkCsv cols [])]) ]}.

(** A disk on which the 2024 archive name is taken by a file that is
    not a zip archive. *)
Definition text_disk : gmap string file :=
  {[ "./chicago_crime_2024.zip" := NotZip ]}.

(** An archive whose CSV has no District column. *)
Definition short_csv : CsvFile :=
  mkCsv ["Date"; "Primary Type"; "Description"; "Arrest";
         "Latitude"; "Longitude"; "Location Description"] [theft].
Definition short_archive : ZipFile := mkZip [("crimes.csv", short_csv)].
Definition short_disk : gmap string file :=
  {[ "./chicago_crime_2024.zip" := Zip short_archive ]}.

(** An archive with one good record and one whose date is not a date. *)
Definition undated : gmap string value := <["Date" := Str "yesterday"]> theft.
Definition undated_csv : CsvFile := mkCsv cols [theft; undated].
Definition undated_archive : ZipFile := mkZip [("crimes.csv", undated_csv)].
Definition undated_disk : gmap string file :=
  {[ "./chicago_crime_2024.zip" := Zip undated_archive ]}.

(** A view of 20,001 located incidents, and a store holding it. *)
Definition crowd : list (gmap string value) :=
  replicate (Z.to_nat 20001) loaded_theft.
Definition crowd_store : State :=
  mkState {[ "filtered_df" := PRef 0%nat ]} {[ 0%nat := ODataFrame crowd ]}
          on_dashboard [].

End Sample.

(* ===================================================================== *)
(** * 11. Predicates used in the statements *)
(* ===================================================================== *)

(** In [σ] the name [x] refers to a table with contents [d]. *)
Definition bound_df (σ : State) (x : string) (d : DataFrame) : Prop :=
  ∃ l, globals σ !! x = Some (PRef l) ∧ heap σ !! l = Some (ODataFrame d).

(** In [σ] the name [x] refers to a boolean series with contents [m]. *)
Definition bound_series (σ : State) (x : string) (m : list bool) : Prop :=
  ∃ l, globals σ !! x = Some (PRef l) ∧ heap σ !! l = Some (OSeries m).

(** A computation that leaves every existing heap object as it is and
    does not rebind the name [x]. *)
Definition frames {A} (x : string) (m : M A) : Prop :=
  ∀ σ, heap σ ⊆ heap (m σ).2 ∧ globals (m σ).2 !! x = globals σ !! x.

(** The three masks of lines 167-170 seen from one row. *)
Definition row_test (sel_types : list string) (sel_districts : list Z)
    (arrest : ArrestChoice) (r : Row) : bool :=
  isin_str sel_types (cell "Primary Type" r)
  && (if nonempty sel_districts
      then isin_int sel_districts (cell "District" r) else true)
  && match arrest with
     | All => true
     | Yes => eq_bool true (cell "Arrest" r)
     | No => eq_bool false (cell "Arrest" r)
     end.

(** The Arrest cell of a row is neither [True] nor [False]. *)
Definition arrest_unknown (r : Row) : Prop := ∀ b, cell "Arrest" r ≠ Bool b.

(** The columns of a loaded table. *)
Definition loaded_columns : list string :=
  cols ++ ["Month_Num"; "Hour"; "DayOfWeek"].

(** [σ] after the calls [evs] into the presentation layer. *)
Definition add_out (σ : State) (evs : list event) : State :=
  mkState (globals σ) (heap σ) (session σ) (out σ ++ evs).

(** The number of rows of [df] that fall in group [k]. *)
Definition group_count {K} `{EqDecision K} (key : Row → option K) (k : K)
    (df : DataFrame) : nat :=
  length (filter (λ r, key r = Some k) df).

(* ===================================================================== *)
(** * 12. Properties *)
(* ===================================================================== *)

(** Lookups through a stack of insertions at literal keys. *)
Ltac lookup_inserts :=
  repeat first [rewrite lookup_insert_eq | rewrite lookup_insert_ne by done].

(** ** The date accessors *)

Lemma dt_hour_range t : 0 ≤ dt_hour t ≤ 23.
Proof.
  unfold dt_hour. pose proof (Z.mod_pos_bound (ns t / NS_PER_HOUR) 24). lia.
Qed.

Lemma civil_month_range d : 1 ≤ civil_month d ≤ 12.
Proof.
  unfold civil_month; cbv zeta.
  set (z := d + 719468).
  set (doe := z - z / 146097 * 146097).
  assert (Hdoe : 0 ≤ doe ≤ 146096).
  { subst doe. pose proof (Z.mod_pos_bound z 146097).
    pose proof (Z.div_mod z 146097). lia. }
  clearbody doe. clear z.
  set (yoe := (doe - doe / 1460 + doe / 36524 - doe / 146096) / 365).
  set (doy := doe - (365 * yoe + yoe / 4 - yoe / 100)).
  assert (Hdoy : 0 ≤ doy ≤ 365).
  { subst doy yoe. Z.div_mod_to_equations. lia. }
  clearbody doy.
  assert (0 ≤ (5 * doy + 2) / 153 < 12).
  { split; [apply Z.div_pos; lia | apply Z.div_lt_upper_bound; lia]. }
  destruct (Z.ltb_spec ((5 * doy + 2) / 153) 10); lia.
Qed.

Lemma dt_month_range t : 1 ≤ dt_month t ≤ 12.
Proof. apply civil_month_range. Qed.

Lemma dt_dayofweek_range t : 0 ≤ dt_dayofweek t ≤ 6.
Proof.
  unfold dt_dayofweek. pose proof (Z.mod_pos_bound (epoch_days t + 3) 7). lia.
Qed.

Lemma dt_day_name_in_days t : dt_day_name t ∈ days.
Proof.
  unfold dt_day_name. pose proof (dt_dayofweek_range t) as H.
  assert (Hn : (Z.to_nat (dt_dayofweek t) < 7)%nat) by lia.
  destruct (days !! Z.to_nat (dt_dayofweek t)) as [d|] eqn:E.
  - simpl. eapply list_elem_of_lookup_2, E.
  - apply lookup_ge_None in E. simpl in E. lia.
Qed.

(** ** Archive discovery *)

Lemma candidate_paths year :
  (d ← search_dirs; f ← possible_files year; [os_path_join d f]) =
  [ "./chicago_crime_" ++ str_of_int year ++ ".csv.zip";
    "./chicago_crime_" ++ str_of_int year ++ ".zip";
    "split_data_by_year/chicago_crime_" ++ str_of_int year ++ ".csv.zip";
    "split_data_by_year/chicago_crime_" ++ str_of_int year ++ ".zip" ].
Proof. reflexivity. Qed.

(** C2.  For every year the locator tests the four paths obtained by
    pairing "." and "split_data_by_year" with
    chicago_crime_{year}.csv.zip and chicago_crime_{year}.zip, in that
    order and no other path; it selects the first one that exists (the
    paths after it are not tested), and when none exists all four have
    been tested and [load_data] returns [None]. *)
Theorem locate_selects_first_existing_candidate
    (parse_datetime : string → option Timestamp) (fs : FileSystem) (year : Z) :
  let c := d ← search_dirs; f ← possible_files year; [os_path_join d f] in
  c = [ "./chicago_crime_" ++ str_of_int year ++ ".csv.zip";
        "./chicago_crime_" ++ str_of_int year ++ ".zip";
        "split_data_by_year/chicago_crime_" ++ str_of_int year ++ ".csv.zip";
        "split_data_by_year/chicago_crime_" ++ str_of_int year ++ ".zip" ] ∧
  match list_find (λ p, os_path_exists fs p = true) c with
  | Some (i, p) =>
      found_path (locate fs year) = Some p ∧
      probed (locate fs year) = take (S i) c
  | None =>
      found_path (locate fs year) = None ∧
      probed (locate fs year) = c ∧
      load_data parse_datetime fs year = Ok None
  end.
Proof.
  intros c. split; [reflexivity|].
  subst c. rewrite candidate_paths.
  unfold load_data, locate, search_dirs, possible_files.
  cbn [scan_dirs scan_files list_find fmap option_fmap option_map].
  change (os_path_join "." ("chicago_crime_" ++ str_of_int year ++ ".csv.zip"))
    with ("./chicago_crime_" ++ str_of_int year ++ ".csv.zip").
  change (os_path_join "." ("chicago_crime_" ++ str_of_int year ++ ".zip"))
    with ("./chicago_crime_" ++ str_of_int year ++ ".zip").
  change (os_path_join "split_data_by_year" ("chicago_crime_" ++ str_of_int year ++ ".csv.zip"))
    with ("split_data_by_year/chicago_crime_" ++ str_of_int year ++ ".csv.zip").
  change (os_path_join "split_data_by_year" ("chicago_crime_" ++ str_of_int year ++ ".zip"))
    with ("split_data_by_year/chicago_crime_" ++ str_of_int year ++ ".zip").
  destruct (os_path_exists fs ("./chicago_crime_" ++ _ ++ ".csv.zip")) eqn:E1;
    [by cbn|].
  destruct (os_path_exists fs ("./chicago_crime_" ++ _ ++ ".zip")) eqn:E2;
    [by cbn|].
  cbn.
  destruct (os_path_exists fs ("split_data_by_year/chicago_crime_" ++ _ ++ ".csv.zip")) eqn:E3;
    [by cbn|].
  destruct (os_path_exists fs ("split_data_by_year/chicago_crime_" ++ _ ++ ".zip")) eqn:E4;
    by cbn.
Qed.

(** The search result is one of the four candidates. *)
Lemma locate_found fs year p :
  found_path (locate fs year) = Some p →
  p ∈ (d ← search_dirs; f ← possible_files year; [os_path_join d f]) ∧
  os_path_exists fs p = true.
Proof.
  pose proof (locate_selects_first_existing_candidate (λ _, None) fs year) as [_ H].
  cbv zeta in H.
  destruct (list_find _ _) as [[i q]|] eqn:E.
  - destruct H as [-> _]. intros [= ->].
    apply list_find_Some in E as (Hq & Hex & _).
    split; [eapply list_elem_of_lookup_2, Hq | done].
  - destruct H as [-> _]. done.
Qed.

Lemma located_truthy fs year p :
  found_path (locate fs year) = Some p → truthy (Some p) = true.
Proof.
  intros [Hp _]%locate_found. rewrite candidate_paths in Hp.
  repeat (apply elem_of_cons in Hp as [-> | Hp]; [reflexivity|]).
  by apply elem_of_nil in Hp.
Qed.

(** ** CSV extraction *)

Lemma head_filter_list_find {A} (f : A → bool) (l : list A) :
  head (List.filter f l) = snd <$> list_find (λ x, f x = true) l.
Proof.
  induction l as [|a l IH]; [done|].
  cbn. destruct (f a) eqn:E.
  - rewrite decide_True by done. done.
  - rewrite decide_False by done.
    rewrite IH. by destruct (list_find _ l) as [[??]|].
Qed.

(** C3.  In a located archive the extractor opens the first name of the
    name list that ends with ".csv" and does not start with "__MACOSX",
    and nothing else; such a name never starts with "__MACOSX"; when the
    list has no such name, [load_data] returns [None]. *)
Theorem extractor_reads_first_real_csv
    (parse_datetime : string → option Timestamp)
    (fs : FileSystem) (year : Z) (p : string) (z : ZipFile) :
  found_path (locate fs year) = Some p →
  fs !! p = Some (Zip z) →
  match list_find (λ name, endswith name ".csv" = true ∧
                           startswith name "__MACOSX" = false) (namelist z) with
  | Some (i, name) =>
      member_read z = Some name ∧
      load_data parse_datetime fs year =
        rbind (read_member parse_datetime z name) (λ df, Ok (Some df))
  | None =>
      member_read z = None ∧
      load_data parse_datetime fs year = Ok None
  end.
Proof.
  intros Hp Hz.
  assert (Hm : member_read z =
               snd <$> list_find (λ name, endswith name ".csv" = true ∧
                                  startswith name "__MACOSX" = false) (namelist z)).
  { unfold member_read, csv_files. rewrite head_filter_list_find.
    f_equal. apply list_find_ext. intros name.
    rewrite andb_true_iff, negb_true_iff. done. }
  unfold load_data. rewrite Hp, (located_truthy _ _ _ Hp).
  unfold zipfile_open. rewrite Hz. cbn [rbind].
  unfold member_read in *.
  destruct (list_find _ _) as [[i name]|]; cbn in Hm.
  - destruct (csv_files z) as [|n ns]; [done|].
    injection Hm as ->. split; reflexivity.
  - destruct (csv_files z); [split; reflexivity | done].
Qed.

(** The sample archive: the metadata entry and the text file are passed
    over, the first real CSV is the member read. *)
Lemma extractor_reads_first_real_csv_witness :
  found_path (locate Sample.disk 2024) =
    Some "split_data_by_year/chicago_crime_2024.zip" ∧
  member_read Sample.archive = Some "chicago_crime_2024.csv" ∧
  load_data Sample.parse Sample.disk 2024 =
    rbind (read_member Sample.parse Sample.archive "chicago_crime_2024.csv")
          (λ df, Ok (Some df)).
Proof.
  split; [by vm_compute|].
  exact (extractor_reads_first_real_csv Sample.parse Sample.disk 2024
           "split_data_by_year/chicago_crime_2024.zip" Sample.archive
           eq_refl eq_refl).
Defined.

(** ** Column derivation *)

Lemma rmapM_Forall2 {A B} (f : A → result B) (l : list A) (l' : list B) :
  rmapM f l = Ok l' → Forall2 (λ a b, f a = Ok b) l l'.
Proof.
  revert l'. induction l as [|a l IH]; intros l'; cbn.
  - intros [= <-]. constructor.
  - destruct (f a) as [b|] eqn:Ea; cbn; [|done].
    destruct (rmapM f l) as [bs|] eqn:El; cbn; [|done].
    intros [= <-]. constructor; auto.
Qed.

Section LoaderFacts.

Variable parse_datetime : string → option Timestamp.

Lemma to_datetime_cell_shape v d :
  to_datetime_cell parse_datetime v = Ok d → d = NaN ∨ ∃ t, d = Time t.
Proof.
  destruct v as [|s|z|b|q|t]; cbn; try done.
  - intros [= <-]. by left.
  - destruct (parse_datetime s); [|done]. intros [= <-]. eauto.
  - intros [= <-]. eauto.
  - intros [= <-]. eauto.
Qed.

(** A loaded row is the row read from the CSV with its Date converted
    and the three derived cells added. *)
Lemma read_member_rows z name df r :
  read_member parse_datetime z name = Ok df → r ∈ df →
  ∃ f raw_df raw d,
    z_open z name = Ok f ∧ read_csv f cols = Ok raw_df ∧ raw ∈ raw_df ∧
    to_datetime_cell parse_datetime (cell "Date" raw) = Ok d ∧
    r = <["DayOfWeek" := day_name_cell d]> (<["Hour" := hour_cell d]>
          (<["Month_Num" := month_cell d]> (<["Date" := d]> raw))).
Proof.
  unfold read_member.
  destruct (z_open z name) as [f|] eqn:Ef; cbn; [|done].
  destruct (read_csv f cols) as [raw_df|] eqn:Er; cbn; [|done].
  destruct (parse_dates parse_datetime raw_df) as [dated|] eqn:Ed; cbn; [|done].
  intros [= <-] Hr.
  unfold derive_columns, assign in Hr.
  apply list_elem_of_fmap in Hr as (r2 & -> & Hr).
  apply list_elem_of_fmap in Hr as (r1 & -> & Hr).
  apply list_elem_of_fmap in Hr as (r0 & -> & Hr).
  apply rmapM_Forall2 in Ed.
  apply list_elem_of_lookup in Hr as [i Hi].
  destruct (Forall2_lookup_r _ _ _ i r0 Ed Hi) as (raw & Hraw & Hconv).
  destruct (to_datetime_cell parse_datetime (cell "Date" raw)) as [d|] eqn:Ec;
    cbn in Hconv; [|done].
  injection Hconv as <-.
  exists f, raw_df, raw, d. repeat split; try done.
  - eapply list_elem_of_lookup_2, Hraw.
  - unfold cell. by lookup_inserts.
Qed.

Lemma load_data_member fs year df :
  load_data parse_datetime fs year = Ok (Some df) →
  ∃ p z name,
    found_path (locate fs year) = Some p ∧ fs !! p = Some (Zip z) ∧
    member_read z = Some name ∧ read_member parse_datetime z name = Ok df.
Proof.
  unfold load_data, member_read, zipfile_open.
  destruct (found_path (locate fs year)) as [p|]; [|done].
  destruct (truthy (Some p)); [|done].
  destruct (fs !! p) as [[z|]|] eqn:Ez; cbn; try done.
  destruct (csv_files z) as [|name ?] eqn:Ec; [done|].
  destruct (read_member parse_datetime z name) as [df'|] eqn:Er; cbn; [|done].
  intros [= <-]. exists p, z, name. by rewrite Ec.
Qed.

(** C4, as the code has it.  In every row of the loaded table the Date
    cell is a timestamp (or missing, when the CSV field was empty), and
    the columns named Month_Num, Hour and DayOfWeek hold the calendar
    month (1-12), the hour of day (0-23) and the English weekday name of
    that timestamp (and are missing when the date is). *)
Theorem derived_columns_follow_Date fs year df r :
  load_data parse_datetime fs year = Ok (Some df) → r ∈ df →
  (∃ t, r !! "Date" = Some (Time t) ∧
        r !! "Month_Num" = Some (Int (dt_month t)) ∧ 1 ≤ dt_month t ≤ 12 ∧
        r !! "Hour" = Some (Int (dt_hour t)) ∧ 0 ≤ dt_hour t ≤ 23 ∧
        r !! "DayOfWeek" = Some (Str (dt_day_name t)) ∧ dt_day_name t ∈ days) ∨
  (r !! "Date" = Some NaN ∧ r !! "Month_Num" = Some NaN ∧
   r !! "Hour" = Some NaN ∧ r !! "DayOfWeek" = Some NaN).
Proof.
  intros (p & z & name & _ & _ & _ & Hm)%load_data_member Hr.
  destruct (read_member_rows _ _ _ _ Hm Hr) as (f & raw_df & raw & d & _ & _ & _ & Hd & ->).
  apply to_datetime_cell_shape in Hd as [-> | [t ->]].
  - right. by lookup_inserts.
  - left. exists t. cbn [month_cell hour_cell day_name_cell].
    repeat split; try by lookup_inserts.
    all: first [apply dt_month_range | apply dt_hour_range | apply dt_day_name_in_days].
Qed.

End LoaderFacts.

(** The sample archive loads into the sample table, whose first row was
    stamped on a Monday in January at 13h. *)
Lemma derived_columns_follow_Date_witness :
  load_data Sample.parse Sample.disk 2024 = Ok (Some Sample.table) ∧
  ((∃ t, Sample.loaded_theft !! "Date" = Some (Time t) ∧
         Sample.loaded_theft !! "Month_Num" = Some (Int (dt_month t)) ∧
         1 ≤ dt_month t ≤ 12 ∧
         Sample.loaded_theft !! "Hour" = Some (Int (dt_hour t)) ∧
         0 ≤ dt_hour t ≤ 23 ∧
         Sample.loaded_theft !! "DayOfWeek" = Some (Str (dt_day_name t)) ∧
         dt_day_name t ∈ days) ∨
   (Sample.loaded_theft !! "Date" = Some NaN ∧
    Sample.loaded_theft !! "Month_Num" = Some NaN ∧
    Sample.loaded_theft !! "Hour" = Some NaN ∧
    Sample.loaded_theft !! "DayOfWeek" = Some NaN)).
Proof.
  split; [by vm_compute|].
  apply (derived_columns_follow_Date Sample.parse Sample.disk 2024 Sample.table).
  - by vm_compute.
  - apply list_elem_of_here.
Defined.

(** C4, as stated, fails: the loader adds no column named Month.  The
    month number of the first sample row is under Month_Num. *)
Lemma no_column_named_Month :
  load_data Sample.parse Sample.disk 2024 = Ok (Some Sample.table) ∧
  Sample.loaded_theft ∈ Sample.table ∧
  Sample.loaded_theft !! "Date" = Some (Time Sample.noon) ∧
  Sample.loaded_theft !! "Month" = None ∧
  Sample.loaded_theft !! "Month_Num" = Some (Int (dt_month Sample.noon)).
Proof.
  split; [by vm_compute|]. split; [apply list_elem_of_here|]. by vm_compute.
Qed.

(** ** The filter engine *)

Lemma series_and_fmap {A} (f g : A → bool) (l : list A) :
  series_and (f <$> l) (g <$> l) = (λ x, f x && g x) <$> l.
Proof. induction l; cbn; [done | by f_equal]. Qed.

Lemma getitem_mask_fmap (f : Row → bool) (df : DataFrame) :
  getitem_mask df (f <$> df) = filter (λ r, f r = true) df.
Proof.
  unfold getitem_mask. induction df as [|r df IH]; [done|].
  cbn [fmap list_fmap zip zip_with]. rewrite !filter_cons. cbn [snd].
  destruct (decide (f r = true)); cbn; rewrite <- IH; done.
Qed.

(** The row test the three masks add up to. *)
Lemma build_mask_rows df sel_types sel_districts arrest :
  build_mask df sel_types sel_districts arrest =
  (λ r, isin_str sel_types (cell "Primary Type" r)
        && (if nonempty sel_districts
            then isin_int sel_districts (cell "District" r) else true)
        && match arrest with
           | All => true
           | Yes => eq_bool true (cell "Arrest" r)
           | No => eq_bool false (cell "Arrest" r)
           end) <$> df.
Proof.
  unfold build_mask, column. rewrite <- !list_fmap_compose.
  destruct (nonempty sel_districts), arrest;
    rewrite ?series_and_fmap; apply list_fmap_ext; intros _ r _; cbn;
    by rewrite ?andb_true_r.
Qed.

(** C1.  A row is in the filtered view exactly when it is a row of the
    loaded table whose Primary Type is among the selected types, whose
    District is among the selected districts unless none is selected, and
    whose Arrest field agrees with the arrest choice unless that is All. *)
Theorem filtered_view_rows (df : DataFrame) (sel_types : list string)
    (sel_districts : list Z) (arrest : ArrestChoice) (r : Row) :
  r ∈ filtered_df df sel_types sel_districts arrest ↔
  r ∈ df ∧
  (∃ t, cell "Primary Type" r = Str t ∧ t ∈ sel_types) ∧
  (sel_districts = [] ∨ ∃ d, cell "District" r = Int d ∧ d ∈ sel_districts) ∧
  (arrest = All ∨ (arrest = Yes ∧ cell "Arrest" r = Bool true)
               ∨ (arrest = No ∧ cell "Arrest" r = Bool false)).
Proof.
  unfold filtered_df. rewrite build_mask_rows, getitem_mask_fmap.
  rewrite list_elem_of_filter, !andb_true_iff.
  assert (Ht : isin_str sel_types (cell "Primary Type" r) = true ↔
               ∃ t, cell "Primary Type" r = Str t ∧ t ∈ sel_types).
  { unfold isin_str. destruct (cell "Primary Type" r) as [|s| | | |];
      try (split; [done | by intros (? & ? & ?)]).
    rewrite bool_decide_eq_true. split; [eauto | by intros (? & [= ->] & ?)]. }
  assert (Hd : (if nonempty sel_districts
                then isin_int sel_districts (cell "District" r) else true) = true ↔
               sel_districts = [] ∨
               ∃ d, cell "District" r = Int d ∧ d ∈ sel_districts).
  { destruct sel_districts as [|d0 ds]; cbn [nonempty]; [by split; [left|]|].
    unfold isin_int. destruct (cell "District" r) as [| |z| | |];
      try (split; [done | by intros [? | (? & ? & ?)]]).
    rewrite bool_decide_eq_true.
    split; [eauto | by intros [? | (? & [= ->] & ?)]]. }
  assert (Ha : match arrest with
               | All => true
               | Yes => eq_bool true (cell "Arrest" r)
               | No => eq_bool false (cell "Arrest" r)
               end = true ↔
               arrest = All ∨ (arrest = Yes ∧ cell "Arrest" r = Bool true)
                            ∨ (arrest = No ∧ cell "Arrest" r = Bool false)).
  { unfold eq_bool.
    destruct arrest; [by split; [left|] | |];
      destruct (cell "Arrest" r) as [| | |[]| |];
      rewrite ?bool_decide_eq_true;
      (split; [intros ?; auto; congruence
              | intros [? | [[? ?] | [? ?]]]; congruence]). }
  rewrite Ht, Hd, Ha. tauto.
Qed.

(** ** The store: what the filter block touches *)

Section Frame.

Variable x : string.

Lemma frames_ret {A} (a : A) : frames x (ret a).
Proof. by intros σ. Qed.

Lemma frames_lift {A} (r : result A) : frames x (lift r).
Proof. by intros σ. Qed.

Lemma frames_bind {A B} (m : M A) (k : A → M B) :
  frames x m → (∀ a, frames x (k a)) → frames x (bind m k).
Proof.
  intros Hm Hk σ. unfold bind. specialize (Hm σ).
  destruct (m σ) as [[a|s] σ1]; cbn in *; [|done].
  specialize (Hk a σ1). destruct Hk as [Hh Hg], Hm as [Hh' Hg'].
  split; [by etrans | congruence].
Qed.

Lemma frames_throw {A} (e : exn) : frames x (throw (A := A) e).
Proof. by intros σ. Qed.

Lemma frames_emit e : frames x (emit e).
Proof. by intros σ. Qed.

Lemma frames_read_name y : frames x (read_name y).
Proof. intros σ. unfold read_name. by destruct (globals σ !! y). Qed.

Lemma frames_deref l : frames x (deref l).
Proof. intros σ. unfold deref. by destruct (heap σ !! l). Qed.

Lemma frames_alloc o : frames x (alloc o).
Proof.
  intros σ. cbn. split; [|done].
  apply insert_subseteq, not_elem_of_dom, is_fresh.
Qed.

Lemma frames_assign_name y v : y ≠ x → frames x (assign_name y v).
Proof. intros Hne σ. cbn. by rewrite lookup_insert_ne. Qed.

End Frame.

Create HintDb frame.
#[local] Hint Resolve frames_ret frames_lift frames_throw frames_emit frames_read_name
  frames_deref frames_alloc : frame.

(** Decompose a computation into binds and branches, closing the leaves
    with the lemmas above. *)
Ltac frame_step :=
  first
    [ solve [auto with frame]
    | apply frames_assign_name; done
    | apply frames_bind; [|intros ?]
    | match goal with
      | |- frames _ (match ?v with _ => _ end) => destruct v
      | |- frames _ (if ?b then _ else _) => destruct b
      end ].

Lemma frames_read_df x y : frames x (read_df y).
Proof. unfold read_df. repeat frame_step. Qed.

Lemma frames_read_series x y : frames x (read_series y).
Proof. unfold read_series. repeat frame_step. Qed.

Lemma frames_read_strs x y : frames x (read_strs y).
Proof. unfold read_strs. repeat frame_step. Qed.

Lemma frames_read_ints x y : frames x (read_ints y).
Proof. unfold read_ints. repeat frame_step. Qed.

Lemma frames_read_choice x y : frames x (read_choice y).
Proof. unfold read_choice. repeat frame_step. Qed.

Lemma frames_assign_series x y m : y ≠ x → frames x (assign_series y m).
Proof. intros. unfold assign_series. repeat frame_step. Qed.

Lemma frames_assign_df x y d : y ≠ x → frames x (assign_df y d).
Proof. intros. unfold assign_df. repeat frame_step. Qed.

#[local] Hint Resolve frames_read_df frames_read_series frames_read_strs
  frames_read_ints frames_read_choice : frame.

Lemma frames_filter_block : frames "df" filter_block.
Proof.
  unfold filter_block.
  repeat first [ apply frames_assign_series; done
               | apply frames_assign_df; done
               | frame_step ].
Qed.

(** C6.  Running the filter block leaves the source table as it was: the
    name [df] still refers to the same object, and that object holds the
    same table, hence the same rows, columns and row count. *)
Theorem filter_leaves_source_table (σ : State) (l : nat) (d : DataFrame) :
  globals σ !! "df" = Some (PRef l) →
  heap σ !! l = Some (ODataFrame d) →
  globals (filter_block σ).2 !! "df" = Some (PRef l) ∧
  heap (filter_block σ).2 !! l = Some (ODataFrame d).
Proof.
  intros Hg Hh. destruct (frames_filter_block σ) as [Hsub Heq].
  split; [congruence|]. eapply lookup_weaken; eauto.
Qed.

(** The sample store: [df] refers to object 0 before and after. *)
Lemma filter_leaves_source_table_witness :
  globals Sample.after_sidebar !! "df" = Some (PRef 0%nat) ∧
  heap Sample.after_sidebar !! 0%nat = Some (ODataFrame Sample.table) ∧
  globals (filter_block Sample.after_sidebar).2 !! "df" = Some (PRef 0%nat) ∧
  heap (filter_block Sample.after_sidebar).2 !! 0%nat = Some (ODataFrame Sample.table).
Proof.
  split; [reflexivity|]. split; [reflexivity|].
  apply (filter_leaves_source_table Sample.after_sidebar 0%nat Sample.table);
    reflexivity.
Defined.

(** ** Running the filter block *)

Lemma bind_run {A B} (m : M A) (k : A → M B) σ a σ1 :
  m σ = (Ok a, σ1) → bind m k σ = k a σ1.
Proof. intros E. unfold bind. by rewrite E. Qed.

Lemma read_name_run x v σ :
  globals σ !! x = Some v → read_name x σ = (Ok v, σ).
Proof. intros E. unfold read_name. by rewrite E. Qed.

Lemma read_df_run x d σ : bound_df σ x d → read_df x σ = (Ok d, σ).
Proof.
  intros (l & Hg & Hh). unfold read_df.
  rewrite (bind_run _ _ _ _ _ (read_name_run _ _ _ Hg)).
  unfold bind, deref. by rewrite Hh.
Qed.

Lemma read_series_run x m σ : bound_series σ x m → read_series x σ = (Ok m, σ).
Proof.
  intros (l & Hg & Hh). unfold read_series.
  rewrite (bind_run _ _ _ _ _ (read_name_run _ _ _ Hg)).
  unfold bind, deref. by rewrite Hh.
Qed.

Lemma read_strs_run x l σ :
  globals σ !! x = Some (PStrs l) → read_strs x σ = (Ok l, σ).
Proof. intros E. unfold read_strs. by rewrite (bind_run _ _ _ _ _ (read_name_run _ _ _ E)). Qed.

Lemma read_ints_run x l σ :
  globals σ !! x = Some (PInts l) → read_ints x σ = (Ok l, σ).
Proof. intros E. unfold read_ints. by rewrite (bind_run _ _ _ _ _ (read_name_run _ _ _ E)). Qed.

Lemma read_choice_run x a σ :
  globals σ !! x = Some (PChoice a) → read_choice x σ = (Ok a, σ).
Proof. intros E. unfold read_choice. by rewrite (bind_run _ _ _ _ _ (read_name_run _ _ _ E)). Qed.

(** Binding a name to a new object: the other names and the existing
    objects stay, nothing is printed. *)
Lemma assign_series_run x m σ :
  ∃ σ', assign_series x m σ = (Ok tt, σ') ∧ bound_series σ' x m ∧
        heap σ ⊆ heap σ' ∧ out σ' = out σ ∧ session σ' = session σ ∧
        ∀ y, y ≠ x → globals σ' !! y = globals σ !! y.
Proof.
  eexists. split; [reflexivity|]. cbn.
  split; [|split; [|split; [done|split; [done|]]]].
  - eexists. cbn. by rewrite !lookup_insert_eq.
  - apply insert_subseteq, not_elem_of_dom, is_fresh.
  - intros y Hy. by rewrite lookup_insert_ne.
Qed.

Lemma assign_df_run x d σ :
  ∃ σ', assign_df x d σ = (Ok tt, σ') ∧ bound_df σ' x d ∧
        heap σ ⊆ heap σ' ∧ out σ' = out σ ∧ session σ' = session σ ∧
        ∀ y, y ≠ x → globals σ' !! y = globals σ !! y.
Proof.
  eexists. split; [reflexivity|]. cbn.
  split; [|split; [|split; [done|split; [done|]]]].
  - eexists. cbn. by rewrite !lookup_insert_eq.
  - apply insert_subseteq, not_elem_of_dom, is_fresh.
  - intros y Hy. by rewrite lookup_insert_ne.
Qed.

Lemma bound_df_weaken σ σ' x d :
  bound_df σ x d → heap σ ⊆ heap σ' → globals σ' !! x = globals σ !! x →
  bound_df σ' x d.
Proof.
  intros (l & Hg & Hh) Hsub Heq. exists l. split; [congruence|].
  eapply lookup_weaken; eauto.
Qed.

(** The block computes the view of section 6 and binds [filtered_df] to
    it, as a new object. *)
Lemma filter_block_run σ d sel_types sel_districts arrest :
  bound_df σ "df" d →
  globals σ !! "sel_types" = Some (PStrs sel_types) →
  globals σ !! "sel_districts" = Some (PInts sel_districts) →
  globals σ !! "arrest" = Some (PChoice arrest) →
  ∃ σ', filter_block σ = (Ok tt, σ') ∧
        bound_df σ' "filtered_df" (filtered_df d sel_types sel_districts arrest) ∧
        bound_df σ' "df" d ∧ out σ' = out σ ∧ session σ' = session σ ∧
        ∀ y, y ≠ "mask" → y ≠ "filtered_df" → globals σ' !! y = globals σ !! y.
Proof.
  intros Hdf Ht Hd Ha. unfold filter_block, filtered_df, build_mask.
  rewrite (bind_run _ _ _ _ _ (read_df_run _ _ _ Hdf)).
  rewrite (bind_run _ _ _ _ _ (read_strs_run _ _ _ Ht)).
  set (m0 := isin_str sel_types <$> column "Primary Type" d).
  destruct (assign_series_run "mask" m0 σ) as (σ1 & E1 & Hm1 & Hh1 & Ho1 & Hs1 & Hg1).
  rewrite (bind_run _ _ _ _ _ E1).
  assert (Hdf1 : bound_df σ1 "df" d) by (eapply bound_df_weaken; eauto).
  rewrite (bind_run _ _ _ _ _ (read_ints_run _ sel_districts _ ltac:(by rewrite Hg1))).
  set (m1 := if nonempty sel_districts
             then series_and m0 (isin_int sel_districts <$> column "District" d)
             else m0).
  assert (∃ σ2, (if nonempty sel_districts
                 then let* mask := read_series "mask" in
                      let* df := read_df "df" in
                      assign_series "mask"
                        (series_and mask (isin_int sel_districts <$> column "District" df))
                 else ret tt) σ1 = (Ok tt, σ2) ∧
                bound_series σ2 "mask" m1 ∧ heap σ1 ⊆ heap σ2 ∧
                out σ2 = out σ1 ∧ session σ2 = session σ1 ∧
                ∀ y, y ≠ "mask" → globals σ2 !! y = globals σ1 !! y)
    as (σ2 & E2 & Hm2 & Hh2 & Ho2 & Hs2 & Hg2).
  { subst m1. destruct (nonempty sel_districts).
    - rewrite (bind_run _ _ _ _ _ (read_series_run _ _ _ Hm1)).
      rewrite (bind_run _ _ _ _ _ (read_df_run _ _ _ Hdf1)).
      apply assign_series_run.
    - exists σ1. by repeat split. }
  rewrite (bind_run _ _ _ _ _ E2).
  assert (Hdf2 : bound_df σ2 "df" d) by (eapply bound_df_weaken; eauto).
  rewrite (bind_run _ _ _ _ _ (read_choice_run _ arrest _ ltac:(by rewrite Hg2, Hg1))).
  set (m2 := match arrest with
             | Yes => series_and m1 (eq_bool true <$> column "Arrest" d)
             | _ => m1
             end).
  assert (∃ σ3, (match arrest with
                 | Yes =>
                     let* mask := read_series "mask" in
                     let* df := read_df "df" in
                     assign_series "mask"
                       (series_and mask (eq_bool true <$> column "Arrest" df))
                 | _ => ret tt
                 end) σ2 = (Ok tt, σ3) ∧
                bound_series σ3 "mask" m2 ∧ heap σ2 ⊆ heap σ3 ∧
                out σ3 = out σ2 ∧ session σ3 = session σ2 ∧
                ∀ y, y ≠ "mask" → globals σ3 !! y = globals σ2 !! y)
    as (σ3 & E3 & Hm3 & Hh3 & Ho3 & Hs3 & Hg3).
  { subst m2. destruct arrest.
    - exists σ2. by repeat split.
    - rewrite (bind_run _ _ _ _ _ (read_series_run _ _ _ Hm2)).
      rewrite (bind_run _ _ _ _ _ (read_df_run _ _ _ Hdf2)).
      apply assign_series_run.
    - exists σ2. by repeat split. }
  rewrite (bind_run _ _ _ _ _ E3).
  assert (Hdf3 : bound_df σ3 "df" d) by (eapply bound_df_weaken; eauto).
  rewrite (bind_run _ _ _ _ _
             (read_choice_run _ arrest _ ltac:(by rewrite Hg3, Hg2, Hg1))).
  set (m3 := match arrest with
             | No => series_and m2 (eq_bool false <$> column "Arrest" d)
             | _ => m2
             end).
  assert (∃ σ4, (match arrest with
                 | No =>
                     let* mask := read_series "mask" in
                     let* df := read_df "df" in
                     assign_series "mask"
                       (series_and mask (eq_bool false <$> column "Arrest" df))
                 | _ => ret tt
                 end) σ3 = (Ok tt, σ4) ∧
                bound_series σ4 "mask" m3 ∧ heap σ3 ⊆ heap σ4 ∧
                out σ4 = out σ3 ∧ session σ4 = session σ3 ∧
                ∀ y, y ≠ "mask" → globals σ4 !! y = globals σ3 !! y)
    as (σ4 & E4 & Hm4 & Hh4 & Ho4 & Hs4 & Hg4).
  { subst m3. destruct arrest.
    - exists σ3. by repeat split.
    - exists σ3. by repeat split.
    - rewrite (bind_run _ _ _ _ _ (read_series_run _ _ _ Hm3)).
      rewrite (bind_run _ _ _ _ _ (read_df_run _ _ _ Hdf3)).
      apply assign_series_run. }
  rewrite (bind_run _ _ _ _ _ E4).
  assert (Hdf4 : bound_df σ4 "df" d) by (eapply bound_df_weaken; eauto).
  rewrite (bind_run _ _ _ _ _ (read_df_run _ _ _ Hdf4)).
  rewrite (bind_run _ _ _ _ _ (read_series_run _ _ _ Hm4)).
  destruct (assign_df_run "filtered_df" (getitem_mask d m3) σ4)
    as (σ5 & E5 & Hf5 & Hh5 & Ho5 & Hs5 & Hg5).
  exists σ5. split; [exact E5|]. split; [exact Hf5|].
  split; [eapply bound_df_weaken; eauto|].
  split; [congruence|]. split; [congruence|].
  intros y Hy1 Hy2. by rewrite Hg5, Hg4, Hg3, Hg2, Hg1.
Qed.

(** ** Grouped counts *)

Section GroupBy.
Context `{Countable K} (key : Row → option K).

Lemma groupby_size_count (df : DataFrame) (k : K) :
  default 0%nat (groupby_size key df !! k) = group_count key k df.
Proof.
  unfold group_count. induction df as [|r df IH]; [done|].
  cbn [groupby_size foldr]. fold (groupby_size key df).
  rewrite filter_cons. destruct (key r) as [k'|] eqn:Ek.
  - destruct (decide (k' = k)) as [->|Hne].
    + rewrite lookup_insert_eq, decide_True by done. cbn. by rewrite IH.
    + rewrite lookup_insert_ne, decide_False by congruence. done.
  - rewrite decide_False by done. done.
Qed.

(** A group is present exactly when some row falls in it. *)
Lemma groupby_size_None (df : DataFrame) (k : K) :
  groupby_size key df !! k = None ↔ ∀ r, r ∈ df → key r ≠ Some k.
Proof.
  induction df as [|r df IH].
  - split; [by intros _ ? ?%elem_of_nil | done].
  - cbn [groupby_size foldr]. fold (groupby_size key df).
    destruct (key r) as [k'|] eqn:Ek.
    + destruct (decide (k' = k)) as [->|Hne].
      * rewrite lookup_insert_eq. split; [done|].
        intros Hall. destruct (Hall r); [left | done].
      * rewrite lookup_insert_ne, IH by done. split.
        -- intros Hall r' [->|?]%elem_of_cons; [congruence | auto].
        -- intros Hall r' ?. apply Hall. by right.
    + rewrite IH. split.
      * intros Hall r' [->|?]%elem_of_cons; [congruence | auto].
      * intros Hall r' ?. apply Hall. by right.
Qed.

Lemma groupby_size_Some (df : DataFrame) (k : K) (c : nat) :
  groupby_size key df !! k = Some c → c = group_count key k df ∧ (0 < c)%nat.
Proof.
  intros E. pose proof (groupby_size_count df k) as Hc. rewrite E in Hc.
  cbn in Hc. split; [done|]. subst c.
  destruct (decide (group_count key k df = 0%nat)) as [Hz|]; [|lia].
  assert (Hnone : groupby_size key df !! k = None); [|congruence].
  apply groupby_size_None. intros r Hr Hk.
  unfold group_count in Hz. apply length_zero_iff_nil in Hz.
  assert (r ∈ filter (λ r, key r = Some k) df) as Hin
    by (by apply list_elem_of_filter).
  rewrite Hz in Hin. by apply elem_of_nil in Hin.
Qed.
End GroupBy.

(** ** The heatmap table *)

Lemma full_idx_length : length full_idx = 168%nat.
Proof. reflexivity. Qed.

Lemma full_idx_NoDup : NoDup full_idx.
Proof. apply (bool_decide_unpack (NoDup full_idx)). by vm_compute. Qed.

Lemma full_idx_elem d h : (d, h) ∈ full_idx ↔ d ∈ days ∧ 0 ≤ h < 24.
Proof.
  unfold full_idx. rewrite list_elem_of_bind. split.
  - intros (d' & Hin & Hd). apply list_elem_of_bind in Hin as (h' & Hin & Hh).
    apply list_elem_of_singleton in Hin as [= -> ->].
    apply elem_of_seqZ in Hh. split; [done | lia].
  - intros [Hd Hh]. exists d. split; [|done].
    apply list_elem_of_bind. exists h. split; [by apply list_elem_of_singleton|].
    apply elem_of_seqZ. lia.
Qed.

(** ** Running the panels *)

Lemma emit_run e σ : emit e σ = (Ok tt, add_out σ [e]).
Proof. reflexivity. Qed.

Lemma add_out_nil σ : add_out σ [] = σ.
Proof. destruct σ. unfold add_out. cbn. by rewrite app_nil_r. Qed.

Lemma add_out_app σ a b : add_out (add_out σ a) b = add_out σ (a ++ b).
Proof. unfold add_out. cbn. by rewrite app_assoc. Qed.

Lemma bound_df_add_out σ x d evs : bound_df σ x d → bound_df (add_out σ evs) x d.
Proof. by intros (l & ? & ?); exists l. Qed.

Lemma lift_run {A} (a : A) σ : lift (Ok a) σ = (Ok a, σ).
Proof. reflexivity. Qed.

Lemma bind_read_df {B} x d (k : DataFrame → M B) σ :
  bound_df σ x d → bind (read_df x) k σ = k d σ.
Proof. intros Hb. apply bind_run. by apply read_df_run. Qed.

Lemma bind_read_name {B} x v (k : pyval → M B) σ :
  globals σ !! x = Some v → bind (read_name x) k σ = k v σ.
Proof. intros Hb. apply bind_run. by apply read_name_run. Qed.

Lemma bind_read_strs {B} x l (k : list string → M B) σ :
  globals σ !! x = Some (PStrs l) → bind (read_strs x) k σ = k l σ.
Proof. intros Hb. apply bind_run. by apply read_strs_run. Qed.

Lemma bind_ret {A B} (a : A) (k : A → M B) σ : bind (ret a) k σ = k a σ.
Proof. reflexivity. Qed.

Lemma bind_assoc {A B C} (m : M A) (f : A → M B) (k : B → M C) σ :
  bind (bind m f) k σ = bind m (λ a, bind (f a) k) σ.
Proof. unfold bind. by destruct (m σ) as [[a|s] σ']. Qed.

(** One step of a run: an [emit], a read of a bound name, a lifted
    value. *)
Ltac run_step :=
  first
    [ rewrite bind_assoc
    | rewrite (bind_run _ _ _ _ _ (emit_run _ _))
    | rewrite bind_ret
    | erewrite bind_read_df by (repeat apply bound_df_add_out; eassumption)
    | erewrite bind_read_name by (cbn; eassumption)
    | erewrite bind_read_strs by (cbn; eassumption)
    | rewrite (bind_run _ _ _ _ _ (lift_run _ _)) ].

Lemma heatmap_panel_run σ fdf :
  bound_df σ "filtered_df" fdf →
  heatmap_panel σ =
    (Ok tt, add_out σ [Markdown; Subheader "🗓️ Temporal Heatmap (Hourly Detail)";
                       if empty fdf
                       then Info "No data available to generate heatmap."
                       else HeatmapChart (heat fdf)]).
Proof.
  intros Hb. unfold heatmap_panel. repeat run_step.
  destruct (empty fdf); cbn [negb]; by rewrite emit_run, !add_out_app.
Qed.

Lemma heat_lookup fdf i k :
  full_idx !! i = Some k →
  heat fdf !! i = Some (heat_row k (default 0%nat (heat_counts fdf !! k))).
Proof. intros Hi. unfold heat, reindex. by rewrite list_lookup_fmap, Hi. Qed.

(** C9.  For a non-empty filtered view the heatmap is drawn from a table
    of exactly 168 rows, the rows of the seven weekday names (Monday to
    Sunday) paired with the hours 0-23, each pair once; the row of a pair
    that is absent from the grouped counts has count 0 and the row of a
    present pair has its grouped count. *)
Theorem heatmap_table_is_full_grid (σ : State) (fdf : DataFrame) :
  bound_df σ "filtered_df" fdf → fdf ≠ [] →
  heatmap_panel σ =
    (Ok tt, add_out σ [Markdown; Subheader "🗓️ Temporal Heatmap (Hourly Detail)";
                       HeatmapChart (heat fdf)]) ∧
  length (heat fdf) = 168%nat ∧
  length full_idx = 168%nat ∧ NoDup full_idx ∧
  (∀ d h, (d, h) ∈ full_idx ↔ d ∈ days ∧ 0 ≤ h < 24) ∧
  ∀ i d h, full_idx !! i = Some (d, h) →
    ∃ r, heat fdf !! i = Some r ∧
         r !! "DayOfWeek" = Some (Str d) ∧ r !! "Hour" = Some (Int h) ∧
         match heat_counts fdf !! (d, h) with
         | Some c => r !! "Counts" = Some (Int (Z.of_nat c))
         | None => r !! "Counts" = Some (Int 0)
         end.
Proof.
  intros Hb Hne. split.
  { rewrite (heatmap_panel_run _ _ Hb). by destruct fdf. }
  split; [unfold heat, reindex; by rewrite length_fmap|].
  split; [reflexivity|]. split; [apply full_idx_NoDup|].
  split; [apply full_idx_elem|].
  intros i d h Hi. eexists. split; [by apply heat_lookup|].
  unfold heat_row. cbn [fst snd].
  split; [by lookup_inserts|]. split; [by lookup_inserts|].
  destruct (heat_counts fdf !! (d, h)); by lookup_inserts.
Qed.

(** With every type selected by the sample inputs, the filtered view of
    the sample table is the table itself. *)
Lemma sample_after_filter :
  bound_df Sample.after_filter "filtered_df" Sample.table ∧
  globals Sample.after_filter !! "year" = Some (PInt 2024) ∧
  globals Sample.after_filter !! "sel_types" = Some (PStrs ["THEFT"]).
Proof. split; [exists 2%nat; split; by vm_compute | split; by vm_compute]. Qed.

Lemma heatmap_table_is_full_grid_witness :
  bound_df Sample.after_filter "filtered_df" Sample.table ∧
  Sample.table ≠ [] ∧
  length (heat Sample.table) = 168%nat ∧
  (∃ r, heat Sample.table !! 13%nat = Some r ∧
        r !! "DayOfWeek" = Some (Str "Monday") ∧ r !! "Hour" = Some (Int 13) ∧
        r !! "Counts" = Some (Int 2)).
Proof.
  destruct sample_after_filter as [Hb _].
  assert (Hne : Sample.table ≠ []) by done.
  destruct (heatmap_table_is_full_grid Sample.after_filter Sample.table Hb Hne)
    as (_ & Hlen & _ & _ & _ & Hrows).
  split; [exact Hb|]. split; [exact Hne|]. split; [exact Hlen|].
  exact (Hrows 13%nat "Monday" 13 eq_refl).
Defined.

(** ** The map layer *)

Lemma omap_lookup_Forall2 {A} (l : list A) (locs : list nat) :
  Forall (λ i, (i < length l)%nat) locs →
  Forall2 (λ i x, l !! i = Some x) locs (omap (λ i, l !! i) locs).
Proof.
  induction 1 as [|i locs Hi _ IH]; cbn; [constructor|].
  destruct (lookup_lt_is_Some_2 l i Hi) as [x Hx]. rewrite Hx.
  by constructor.
Qed.

(** [df.sample(n)] with [0 <= n <= len(df)] returns [n] rows, taken at
    distinct positions of [df]. *)
Lemma sample_rows rs n (df : DataFrame) :
  0 ≤ n ≤ len df →
  ∃ s locs, sample rs n df = Ok s ∧ len s = n ∧ NoDup locs ∧
            Forall2 (λ i r, df !! i = Some r) locs s.
Proof.
  intros Hn. unfold sample, len in *.
  destruct (Z.ltb_spec n 0); [lia|].
  destruct (Z.ltb_spec (Z.of_nat (length df)) n); [lia|].
  assert (Hle : (Z.to_nat n ≤ length df)%nat) by lia.
  set (locs := choice rs (length df) (Z.to_nat n)).
  assert (HF : Forall2 (λ i r, df !! i = Some r) locs (omap (λ i, df !! i) locs)).
  { apply omap_lookup_Forall2, Forall_forall. intros i Hi.
    by apply (choice_bound rs (length df) (Z.to_nat n)). }
  eexists _, locs. split; [reflexivity|].
  split; [|split; [by apply choice_NoDup | exact HF]].
  apply Forall2_length in HF. rewrite <- HF. subst locs.
  rewrite choice_length by done. lia.
Qed.

Lemma dropna_elem subset df r :
  r ∈ dropna subset df ↔ r ∈ df ∧ ∀ c, c ∈ subset → cell c r ≠ NaN.
Proof.
  unfold dropna. rewrite list_elem_of_filter, forallb_forall.
  split.
  - intros [Hall Hr]. split; [done|].
    intros c Hc%list_elem_of_In Hnan. specialize (Hall c Hc).
    by rewrite Hnan in Hall.
  - intros [Hr Hall]. split; [|done].
    intros c Hc%list_elem_of_In. specialize (Hall c Hc).
    by destruct (cell c r).
Qed.

Lemma map_stage_cases rs (fdf : DataFrame) :
  let geo := dropna ["Latitude"; "Longitude"] fdf in
  (MAP_POINTS < len geo ∧
   ∃ md locs, map_stage rs fdf = Ok (md, Some (sample_caption fdf)) ∧
              len md = MAP_POINTS ∧ NoDup locs ∧
              Forall2 (λ i r, geo !! i = Some r) locs md) ∨
  (len geo ≤ MAP_POINTS ∧ map_stage rs fdf = Ok (geo, None)).
Proof.
  intros geo. unfold map_stage. fold geo.
  destruct (Z.gtb_spec (len geo) MAP_POINTS) as [Hgt|Hle]; [left | by right].
  split; [done|].
  destruct (sample_rows rs MAP_POINTS geo) as (s & locs & -> & ? & ? & ?);
    [unfold MAP_POINTS in *; lia|].
  by exists s, locs.
Qed.

Lemma map_panel_run ui σ fdf md cap :
  bound_df σ "filtered_df" fdf → fdf ≠ [] →
  map_stage (rng ui) fdf = Ok (md, cap) →
  map_panel ui σ =
    (Ok tt, add_out σ (Subheader "📍 Spatial Distribution" ::
                       match cap with Some c => [Caption c] | None => [] end
                       ++ [PydeckChart md])).
Proof.
  intros Hb Hne Hm. unfold map_panel. repeat run_step.
  destruct fdf as [|r fdf]; [done|]. cbn [empty negb].
  rewrite Hm. repeat run_step. cbn [fst snd].
  destruct cap; repeat run_step; by rewrite emit_run, !add_out_app.
Qed.

(** C8.  For a non-empty filtered view the scatter layer gets at most
    20,000 rows: when the rows with coordinates number more than 20,000
    it gets exactly 20,000 of them, drawn at distinct positions, and a
    caption saying so is shown first; otherwise it gets the rows with
    coordinates unchanged and no caption is shown. *)
Theorem map_layer_at_most_20000 (ui : Inputs) (σ : State) (fdf : DataFrame) :
  bound_df σ "filtered_df" fdf → fdf ≠ [] →
  let geo := dropna ["Latitude"; "Longitude"] fdf in
  ∃ md,
    len md ≤ 20000 ∧
    (20000 < len geo →
       len md = 20000 ∧
       (∃ locs, NoDup locs ∧ Forall2 (λ i r, geo !! i = Some r) locs md) ∧
       map_panel ui σ =
         (Ok tt, add_out σ [Subheader "📍 Spatial Distribution";
                            Caption (sample_caption fdf); PydeckChart md])) ∧
    (len geo ≤ 20000 →
       md = geo ∧
       map_panel ui σ =
         (Ok tt, add_out σ [Subheader "📍 Spatial Distribution"; PydeckChart md])).
Proof.
  intros Hb Hne geo.
  destruct (map_stage_cases (rng ui) fdf)
    as [(Hgt & md & locs & Hm & Hlen & Hnd & HF) | (Hle & Hm)];
    fold geo in Hgt || fold geo in Hle; unfold MAP_POINTS in *.
  - exists md. split; [lia|]. split; [|lia].
    intros _. split; [done|]. split; [by exists locs|].
    by rewrite (map_panel_run _ _ _ _ _ Hb Hne Hm).
  - exists geo. split; [done|]. split; [lia|].
    intros _. split; [done|].
    by rewrite (map_panel_run _ _ _ _ _ Hb Hne Hm).
Qed.

Lemma dropna_replicate subset n r :
  forallb (λ c, notna (cell c r)) subset = true →
  dropna subset (replicate n r) = replicate n r.
Proof.
  intros Hr. unfold dropna. induction n as [|n IH]; [done|].
  cbn [replicate]. rewrite filter_cons, decide_True by done. by rewrite IH.
Qed.

Lemma crowd_located :
  dropna ["Latitude"; "Longitude"] Sample.crowd = Sample.crowd ∧
  len Sample.crowd = 20001.
Proof.
  split; [by apply dropna_replicate; vm_compute|].
  unfold len, Sample.crowd. rewrite length_replicate. lia.
Qed.

(** A view of 20,001 located rows: 20,000 reach the layer, after the
    caption. *)
Lemma map_layer_at_most_20000_witness :
  bound_df Sample.crowd_store "filtered_df" Sample.crowd ∧
  Sample.crowd ≠ [] ∧
  ∃ md, len md ≤ 20000 ∧ len md = 20000 ∧
        map_panel Sample.inputs Sample.crowd_store =
          (Ok tt, add_out Sample.crowd_store
                    [Subheader "📍 Spatial Distribution";
                     Caption (sample_caption Sample.crowd); PydeckChart md]).
Proof.
  destruct crowd_located as [Hgeo Hlen].
  assert (Hb : bound_df Sample.crowd_store "filtered_df" Sample.crowd).
  { exists 0%nat. split; apply lookup_singleton_eq. }
  assert (Hne : Sample.crowd ≠ []).
  { intros E. rewrite E in Hlen. discriminate Hlen. }
  split; [exact Hb|]. split; [exact Hne|].
  destruct (map_layer_at_most_20000 Sample.inputs Sample.crowd_store Sample.crowd Hb Hne)
    as (md & Hle & Hbig & _).
  rewrite Hgeo, Hlen in Hbig.
  destruct Hbig as (Hmd & _ & Hrun); [lia|].
  exists md. split; [exact Hle|]. split; [exact Hmd | exact Hrun].
Defined.

(** ** Metric cards and charts *)

Lemma metric_cards_run σ fdf loc short hour :
  bound_df σ "filtered_df" fdf →
  top_location fdf = Ok loc → slice15 loc = Ok short → peak_hour fdf = Ok hour →
  metric_cards σ =
    (Ok tt, add_out σ
       [ MetricCard "Total Incidents" (Text (commas (len fdf))) "Volume" "#3b82f6";
         MetricCard "Arrest Rate" (Percent (arrest_mean fdf)) "Efficiency" "#10b981";
         MetricCard "Top Location" (Text (short ++ "...")) "Risk Zone" "#f59e0b";
         MetricCard "Peak Hour" (Text (format_value hour ++ ":00")) "High Alert" "#ef4444" ]).
Proof.
  intros Hb Hl Hs Hh. unfold metric_cards. repeat run_step.
  rewrite Hl. repeat run_step. rewrite Hs. repeat run_step.
  rewrite Hh. repeat run_step. by rewrite emit_run, !add_out_app.
Qed.

Lemma chart_panel_run σ fdf t :
  bound_df σ "filtered_df" fdf → fdf ≠ [] → trend fdf = Ok t →
  chart_panel σ =
    (Ok tt, add_out σ [ Subheader "📈 Monthly Trend"; AreaChart t;
                        Subheader "📊 Crime Types"; BarChart (top fdf) ]).
Proof.
  intros Hb Hne Ht. unfold chart_panel. repeat run_step.
  destruct fdf as [|r fdf]; [done|]. cbn [empty negb].
  rewrite Ht. repeat run_step. cbn [empty negb].
  by rewrite emit_run, !add_out_app.
Qed.

(** A run of a computation followed by another. *)
Lemma seq_run {A B} (m : M A) (k : M B) σ a evs :
  m σ = (Ok a, add_out σ evs) → bind m (λ _, k) σ = k (add_out σ evs).
Proof. intros E. by rewrite (bind_run _ _ _ _ _ E). Qed.

Lemma map_stage_rows rs fdf md cap r :
  map_stage rs fdf = Ok (md, cap) → r ∈ md →
  r ∈ fdf ∧ cell "Latitude" r ≠ NaN ∧ cell "Longitude" r ≠ NaN.
Proof.
  intros Hm Hr.
  assert (Hgeo : r ∈ dropna ["Latitude"; "Longitude"] fdf).
  { destruct (map_stage_cases rs fdf)
      as [(_ & md' & locs & Hm' & _ & _ & HF) | (_ & Hm')];
      rewrite Hm' in Hm; injection Hm as <- <-; [|done].
    apply list_elem_of_lookup in Hr as [j Hj].
    destruct (Forall2_lookup_r _ _ _ _ _ HF Hj) as (i & _ & Hi).
    eapply list_elem_of_lookup_2, Hi. }
  apply dropna_elem in Hgeo as [Hin Hall].
  split; [done|]. split; apply Hall; set_solver.
Qed.

Lemma map_stage_total rs fdf : ∃ md cap, map_stage rs fdf = Ok (md, cap).
Proof.
  destruct (map_stage_cases rs fdf) as [(_ & md & _ & Hm & _) | (_ & Hm)]; eauto.
Qed.

(** C5.  When the dashboard renders a non-empty filtered view, the table
    given to the map layer has no row with a missing Latitude or
    Longitude (and, when no sampling takes place, has every other row of
    the view), while the metric cards, the monthly trend, the crime-types
    chart and the heatmap are computed from the whole view: their counts
    range over all of its rows, located or not. *)
Theorem only_the_map_drops_unlocated_rows (ui : Inputs) (σ : State)
    (fdf : DataFrame) (loc hour : value) (sel_types : list string)
    (yearv : pyval) (short : string) (t : DataFrame) :
  bound_df σ "filtered_df" fdf → fdf ≠ [] →
  globals σ !! "year" = Some yearv →
  globals σ !! "sel_types" = Some (PStrs sel_types) →
  top_location fdf = Ok loc → slice15 loc = Ok short →
  peak_hour fdf = Ok hour → trend fdf = Ok t →
  ∃ md cap,
    components ui σ =
      (Ok tt, add_out σ
         ([ Title ("Chicago Crime Intelligence: " ++ format_pyval yearv);
            Caption ("Active Filters: " ++ pretty (length sel_types)
                     ++ " Types | Records: " ++ commas (len fdf));
            MetricCard "Total Incidents" (Text (commas (len fdf))) "Volume" "#3b82f6";
            MetricCard "Arrest Rate" (Percent (arrest_mean fdf)) "Efficiency" "#10b981";
            MetricCard "Top Location" (Text (short ++ "...")) "Risk Zone" "#f59e0b";
            MetricCard "Peak Hour" (Text (format_value hour ++ ":00"))
              "High Alert" "#ef4444";
            Markdown;
            Subheader "📍 Spatial Distribution" ]
          ++ match cap with Some c => [Caption c] | None => [] end
          ++ [ PydeckChart md;
               Subheader "📈 Monthly Trend"; AreaChart t;
               Subheader "📊 Crime Types"; BarChart (top fdf);
               Markdown; Subheader "🗓️ Temporal Heatmap (Hourly Detail)";
               HeatmapChart (heat fdf) ])) ∧
    (∀ r, r ∈ md →
          r ∈ fdf ∧ cell "Latitude" r ≠ NaN ∧ cell "Longitude" r ≠ NaN) ∧
    (cap = None →
     ∀ r, r ∈ fdf → cell "Latitude" r ≠ NaN → cell "Longitude" r ≠ NaN → r ∈ md) ∧
    (∀ k, default 0%nat (heat_counts fdf !! k) = group_count day_hour_key k fdf) ∧
    (∀ m, default 0%nat (groupby_size (int_key "Month_Num") fdf !! m)
          = group_count (int_key "Month_Num") m fdf).
Proof.
  intros Hb Hne Hy Hst Hl Hs Hh Ht.
  destruct (map_stage_total (rng ui) fdf) as (md & cap & Hm).
  exists md, cap. split; [|split; [|split; [|split]]].
  - unfold components. repeat run_step.
    erewrite seq_run by (eapply metric_cards_run; eauto using bound_df_add_out).
    repeat run_step.
    erewrite seq_run by (eapply map_panel_run; eauto using bound_df_add_out).
    erewrite seq_run by (eapply chart_panel_run; eauto using bound_df_add_out).
    rewrite (heatmap_panel_run _ fdf) by eauto using bound_df_add_out.
    destruct fdf; [done|]. cbn [empty]. rewrite !add_out_app.
    do 2 f_equal. cbn. destruct cap; reflexivity.
  - intros r Hr. eapply map_stage_rows; eauto.
  - intros -> r Hr Hlat Hlon.
    destruct (map_stage_cases (rng ui) fdf)
      as [(_ & md' & locs & Hm' & _) | (_ & Hm')];
      rewrite Hm' in Hm; [done|]. injection Hm as <-.
    apply dropna_elem. split; [done|].
    intros c Hc. repeat (apply elem_of_cons in Hc as [-> | Hc]; [done|]).
    by apply elem_of_nil in Hc.
  - intros k. apply groupby_size_count.
  - intros m. apply groupby_size_count.
Qed.

(** The sample view has one located and one unlocated row: the cards
    and charts are drawn, and the unlocated row is not on the map. *)
Lemma only_the_map_drops_unlocated_rows_witness :
  bound_df Sample.after_filter "filtered_df" Sample.table ∧
  Sample.table ≠ [] ∧
  globals Sample.after_filter !! "year" = Some (PInt 2024) ∧
  globals Sample.after_filter !! "sel_types" = Some (PStrs ["THEFT"]) ∧
  top_location Sample.table = Ok (Str "STREET") ∧
  slice15 (Str "STREET") = Ok "STREET" ∧
  peak_hour Sample.table = Ok (Int 13) ∧
  trend Sample.table =
    Ok [ ({[ "Month_Num" := Int 1; "Count" := Int 2; "Month" := Str "Jan" ]} : Row) ] ∧
  ∃ md : DataFrame,
    (Sample.loaded_unplaced ∉ md) ∧
    group_count day_hour_key ("Monday", 13) Sample.table = 2%nat.
Proof.
  destruct sample_after_filter as (Hb & Hy & Hst).
  assert (Hne : Sample.table ≠ []) by done.
  assert (Hl : top_location Sample.table = Ok (Str "STREET")) by (by vm_compute).
  assert (Hs : slice15 (Str "STREET") = Ok "STREET") by (by vm_compute).
  assert (Hh : peak_hour Sample.table = Ok (Int 13)) by (by vm_compute).
  assert (Ht : trend Sample.table =
    Ok [ ({[ "Month_Num" := Int 1; "Count" := Int 2; "Month" := Str "Jan" ]} : Row) ])
    by (by vm_compute).
  repeat (split; [assumption|]).
  destruct (only_the_map_drops_unlocated_rows Sample.inputs Sample.after_filter
              Sample.table _ _ _ _ _ _ Hb Hne Hy Hst Hl Hs Hh Ht)
    as (md & cap & _ & Hrows & _ & Hheat & _).
  exists md. split.
  - intros Hin. destruct (Hrows _ Hin) as (_ & Hlat & _). by apply Hlat.
  - rewrite <- Hheat. by vm_compute.
Defined.

(** ** The module-level guard *)

(** C7, on the code.  Every run of the script, whatever the disk, the
    session and the user's input, ends at line 84 with
    [NameError: name 'df' is not defined]: only the page configuration
    and the style sheet have been sent, no error message of the script is
    shown and no dashboard component is reached. *)
Theorem every_run_raises_NameError
    (parse_datetime : string → option Timestamp)
    (fs : FileSystem) (ui : Inputs) (s : Session) :
  (run_script parse_datetime fs ui s).1 = raise (NameError "df") ∧
  out (run_script parse_datetime fs ui s).2 = [PageConfig; Markdown].
Proof. by destruct s as [[m|] [y|]]. Qed.

(** ** The Top Location card *)

(** C10, on the code.  For a view that is not empty and whose rows all
    lack a location text, [mode()] is an empty series and the lookup
    [[0]] on line 193 raises [KeyError]; the run of the metric cards ends
    there, after the first two cards. *)
Theorem top_location_indexes_empty_mode :
  empty Sample.unplaced_view = false ∧
  mode str_le (strs (column "Location Description" Sample.unplaced_view)) = [] ∧
  top_location Sample.unplaced_view = raise (KeyError "0") ∧
  (metric_cards Sample.unplaced_store).1 = raise (KeyError "0") ∧
  out (metric_cards Sample.unplaced_store).2 =
    [ MetricCard "Total Incidents" (Text "1") "Volume" "#3b82f6";
      MetricCard "Arrest Rate" (Percent (Some (0 # 1)%Q)) "Efficiency" "#10b981" ] ∧
  (dashboard Sample.parse Sample.unplaced_disk Sample.inputs
     (mkState ∅ ∅ Sample.on_dashboard [])).1 = raise (KeyError "0").
Proof. repeat split; by vm_compute. Qed.

(** ** [mode()] and the two lookups *)

Lemma max_list_attained {A} (f : A → nat) (l : list A) :
  l ≠ [] → ∃ x, x ∈ l ∧ f x = max_list (f <$> l).
Proof.
  induction l as [|a l IH]; [done|]. intros _.
  destruct l as [|b l].
  - exists a. split; [left|]. cbn. lia.
  - destruct IH as (x & Hx & Hfx); [done|].
    change (max_list (f <$> a :: b :: l))
      with (f a `max` max_list (f <$> b :: l))%nat.
    destruct (le_lt_dec (f a) (max_list (f <$> b :: l))).
    + exists x. split; [by right | lia].
    + exists a. split; [left | lia].
Qed.

Section ModeFacts.
Context {A : Type} `{EqDecision A}.
Context (le : relation A) `{∀ x y, Decision (le x y)}.

Lemma mode_elem (l : list A) (x : A) :
  x ∈ mode le l ↔
  x ∈ l ∧ count_of x l = max_list ((λ y, count_of y l) <$> l).
Proof.
  unfold mode. rewrite merge_sort_Permutation, elem_of_remove_dups.
  rewrite list_elem_of_filter. tauto.
Qed.

(** The modes of a series with at least one value are not empty. *)
Lemma mode_nil (l : list A) : mode le l = [] ↔ l = [].
Proof.
  split; [|by intros ->].
  intros Hm. destruct l as [|a l]; [done|]. exfalso.
  destruct (max_list_attained (λ y, count_of y (a :: l)) (a :: l))
    as (x & Hx & Hc); [done|].
  assert (Hin : x ∈ mode le (a :: l)) by (by apply mode_elem).
  rewrite Hm in Hin. by apply elem_of_nil in Hin.
Qed.

Lemma getitem0_mode (l : list A) :
  match getitem0 (mode le l) with
  | Ok x => x ∈ l ∧ ∀ y, y ∈ l → (count_of y l ≤ count_of x l)%nat
  | Abort s => s = Exception (KeyError "0") ∧ l = []
  end.
Proof.
  destruct (mode le l) as [|x m] eqn:E; cbn.
  - split; [done | exact (proj1 (mode_nil l) E)].
  - assert (Hin : x ∈ mode le l) by (rewrite E; left).
    apply mode_elem in Hin as [Hx Hc]. split; [done|].
    intros y Hy. rewrite Hc. apply max_list_elem_of_le.
    apply list_elem_of_fmap. by exists y.
Qed.
End ModeFacts.

(** The lookup of line 193 fails exactly on a view that has rows but no
    location text; otherwise the card names a most frequent location of
    the view, or the placeholder. *)
Lemma top_location_KeyError_iff (fdf : DataFrame) :
  (top_location fdf = raise (KeyError "0") ↔
   fdf ≠ [] ∧ strs (column "Location Description" fdf) = []) ∧
  (fdf = [] → top_location fdf = Ok (Str "N/A")) ∧
  (strs (column "Location Description" fdf) ≠ [] →
   ∃ s, top_location fdf = Ok (Str s) ∧
        s ∈ strs (column "Location Description" fdf)).
Proof.
  unfold top_location.
  pose proof (getitem0_mode str_le (strs (column "Location Description" fdf))) as Hg.
  destruct fdf as [|r fdf]; cbn [empty negb].
  - split; [split; [done | by intros [? _]]|]. split; [done|]. by intros [].
  - destruct (getitem0 _) as [s|sg]; cbn [rbind].
    + destruct Hg as [Hs _]. split.
      { split; [done|]. intros [_ E]. rewrite E in Hs. by apply elem_of_nil in Hs. }
      split; [done|]. intros _. by exists s.
    + destruct Hg as [-> E]. split; [by split|]. split; [done|]. by intros [].
Qed.

(** The lookup of line 196: the same for the Hour column. *)
Lemma peak_hour_KeyError_iff (fdf : DataFrame) :
  (peak_hour fdf = raise (KeyError "0") ↔
   fdf ≠ [] ∧ ints (column "Hour" fdf) = []) ∧
  (fdf = [] → peak_hour fdf = Ok (Str "N/A")) ∧
  (ints (column "Hour" fdf) ≠ [] →
   ∃ h, peak_hour fdf = Ok (Int h) ∧ h ∈ ints (column "Hour" fdf)).
Proof.
  unfold peak_hour.
  pose proof (getitem0_mode Z.le (ints (column "Hour" fdf))) as Hg.
  destruct fdf as [|r fdf]; cbn [empty negb].
  - split; [split; [done | by intros [? _]]|]. split; [done|]. by intros [].
  - destruct (getitem0 _) as [s|sg]; cbn [rbind].
    + destruct Hg as [Hs _]. split.
      { split; [done|]. intros [_ E]. rewrite E in Hs. by apply elem_of_nil in Hs. }
      split; [done|]. intros _. by exists s.
    + destruct Hg as [-> E]. split; [by split|]. split; [done|]. by intros [].
Qed.

(** On an empty view both lookups are skipped: the four cards show 0,
    the mean of nothing, and the placeholder with its suffix. *)
Lemma cards_on_empty_view σ :
  bound_df σ "filtered_df" [] →
  top_location [] = Ok (Str "N/A") ∧ peak_hour [] = Ok (Str "N/A") ∧
  metric_cards σ =
    (Ok tt, add_out σ
       [ MetricCard "Total Incidents" (Text "0") "Volume" "#3b82f6";
         MetricCard "Arrest Rate" (Percent None) "Efficiency" "#10b981";
         MetricCard "Top Location" (Text "N/A...") "Risk Zone" "#f59e0b";
         MetricCard "Peak Hour" (Text "N/A:00") "High Alert" "#ef4444" ]).
Proof.
  intros Hb. split; [done|]. split; [done|].
  by rewrite (metric_cards_run σ [] (Str "N/A") "N/A" (Str "N/A")).
Qed.

(** ** The sidebar guard (lines 146-164) *)

Section SidebarFacts.

Variable parse_datetime : string → option Timestamp.

(** When [load_data] returns [None], the dashboard shows the message of
    line 163 and stops there: nothing after the sidebar title is sent. *)
Lemma dashboard_without_archive_stops fs ui σ year :
  selected_year (session σ) = Some year →
  back_clicked ui = false →
  load_data parse_datetime fs year = Ok None →
  dashboard parse_datetime fs ui σ =
    (Abort StopScript,
     mkState (<["df" := PNone]> (<["year" := PInt year]> (globals σ)))
             (heap σ) (session σ)
             (out σ ++ [ Widget "← Back to Home"; Divider;
                         Title ("🎛️ Controls (" ++ str_of_int year ++ ")");
                         Error ("Data for " ++ str_of_int year ++ " not found.") ])).
Proof.
  intros Hy Hb Hl. unfold dashboard, sidebar, bind, get_session, lift.
  cbn -[load_data str_of_int]. rewrite Hy. cbn -[load_data str_of_int].
  rewrite Hb. cbn -[load_data str_of_int]. rewrite Hl.
  cbn -[load_data str_of_int]. unfold read_name.
  cbn -[load_data str_of_int]. rewrite lookup_insert_eq.
  cbn -[load_data str_of_int]. by rewrite <- !app_assoc.
Qed.

End SidebarFacts.

(** An archive whose CSV has no record loads as an empty table, which
    is not [None]: the run goes past line 148 and renders the cards with
    their placeholders, the map warning and the heatmap notice. *)
Lemma dashboard_renders_empty_table :
  load_data Sample.parse Sample.blank_disk 2024 = Ok (Some []) ∧
  (dashboard Sample.parse Sample.blank_disk Sample.inputs
     (mkState ∅ ∅ Sample.on_dashboard [])).1 = Ok tt ∧
  out (dashboard Sample.parse Sample.blank_disk Sample.inputs
         (mkState ∅ ∅ Sample.on_dashboard [])).2 =
    [ Widget "← Back to Home"; Divider; Title "🎛️ Controls (2024)";
      Success "Data: 0 rows"; Widget "Filter Type";
      Widget "Police District (Optional)"; Widget "Arrest Status";
      Title "Chicago Crime Intelligence: 2024";
      Caption "Active Filters: 1 Types | Records: 0";
      MetricCard "Total Incidents" (Text "0") "Volume" "#3b82f6";
      MetricCard "Arrest Rate" (Percent None) "Efficiency" "#10b981";
      MetricCard "Top Location" (Text "N/A...") "Risk Zone" "#f59e0b";
      MetricCard "Peak Hour" (Text "N/A:00") "High Alert" "#ef4444";
      Markdown; Subheader "📍 Spatial Distribution";
      Warning "No data available for map.";
      Subheader "📈 Monthly Trend"; Subheader "📊 Crime Types";
      Markdown; Subheader "🗓️ Temporal Heatmap (Hourly Detail)";
      Info "No data available to generate heatmap." ].
Proof. repeat split; by vm_compute. Qed.

(* ===================================================================== *)
(** * 13. Further properties of the pipeline *)
(* ===================================================================== *)

(** ** The filtered view as a selection of rows *)

Lemma filtered_df_filter df sel_types sel_districts arrest :
  filtered_df df sel_types sel_districts arrest =
  filter (λ r, row_test sel_types sel_districts arrest r = true) df.
Proof.
  unfold filtered_df. rewrite build_mask_rows.
  apply (getitem_mask_fmap (row_test sel_types sel_districts arrest)).
Qed.

(** The filtered view is the table with some rows left out: the rows it
    keeps are in their original order and none is repeated or invented. *)
Theorem filtered_view_is_sublist (df : DataFrame) (sel_types : list string)
    (sel_districts : list Z) (arrest : ArrestChoice) :
  filtered_df df sel_types sel_districts arrest `sublist_of` df ∧
  len (filtered_df df sel_types sel_districts arrest) ≤ len df.
Proof.
  rewrite filtered_df_filter. split; [apply sublist_filter|].
  unfold len. pose proof (length_filter
    (λ r, row_test sel_types sel_districts arrest r = true) df). lia.
Qed.

(** With no crime type selected the view is empty, whatever the
    districts and the arrest choice. *)
Theorem no_type_selected_empty_view (df : DataFrame) (sel_districts : list Z)
    (arrest : ArrestChoice) :
  filtered_df df [] sel_districts arrest = [].
Proof.
  rewrite filtered_df_filter. induction df as [|r df IH]; [done|].
  rewrite filter_cons, decide_False; [done|].
  unfold row_test, isin_str. by destruct (cell "Primary Type" r).
Qed.

#[global] Instance arrest_unknown_dec r : Decision (arrest_unknown r).
Proof.
  unfold arrest_unknown. destruct (cell "Arrest" r) as [| | |b| |];
    try (left; intros b'; discriminate).
  right. intros H. by apply (H b).
Defined.

Lemma row_test_cases sel_types sel_districts r :
  let t := row_test sel_types sel_districts in
  (t All r = false ∧ t Yes r = false ∧ t No r = false) ∨
  (t All r = true ∧ t Yes r = true ∧ t No r = false ∧ ¬ arrest_unknown r) ∨
  (t All r = true ∧ t Yes r = false ∧ t No r = true ∧ ¬ arrest_unknown r) ∨
  (t All r = true ∧ t Yes r = false ∧ t No r = false ∧ arrest_unknown r).
Proof.
  unfold row_test, arrest_unknown, eq_bool. cbv zeta.
  destruct (isin_str sel_types (cell "Primary Type" r)
            && (if nonempty sel_districts
                then isin_int sel_districts (cell "District" r) else true));
    cbn [andb]; [|by left].
  right. destruct (cell "Arrest" r) as [| | |[]| |];
    first [ left; repeat split; [done..|]; intros Hu; by eapply Hu
          | right; left; repeat split; [done..|]; intros Hu; by eapply Hu
          | right; right; by repeat split ].
Qed.

(** The Yes view and the No view split the All view: every row of the
    All view is in exactly one of them, except the rows whose Arrest
    field is missing, which are in neither. *)
Theorem arrest_choice_partitions_view (df : DataFrame) (sel_types : list string)
    (sel_districts : list Z) :
  len (filtered_df df sel_types sel_districts All) =
  len (filtered_df df sel_types sel_districts Yes)
  + len (filtered_df df sel_types sel_districts No)
  + len (filter arrest_unknown (filtered_df df sel_types sel_districts All)).
Proof.
  rewrite !filtered_df_filter. unfold len.
  induction df as [|r df IH]; [done|].
  rewrite !filter_cons.
  destruct (row_test_cases sel_types sel_districts r)
    as [(-> & -> & ->) | [(-> & -> & -> & Hu) | [(-> & -> & -> & Hu)
                                               | (-> & -> & -> & Hu)]]];
    repeat (first [rewrite decide_True by done | rewrite decide_False by done]);
    rewrite ?filter_cons;
    repeat (first [rewrite decide_True by done | rewrite decide_False by done]);
    cbn [length]; lia.
Qed.

(** ** What [load_data] returns and when it fails *)

Lemma read_csv_rows f usecols d raw :
  read_csv f usecols = Ok d → raw ∈ d →
  (∀ c, c ∈ usecols → c ∈ header f) ∧
  ∃ rec, rec ∈ records f ∧
         raw = list_to_map ((λ c, (c, cell c rec)) <$> usecols).
Proof.
  unfold read_csv. destruct (forallb _ usecols) eqn:E; [|done].
  intros [= <-] (rec & -> & Hrec)%list_elem_of_fmap. split; [|eauto].
  intros c Hc. rewrite forallb_forall in E.
  specialize (E c (proj1 (list_elem_of_In _ _) Hc)). by apply bool_decide_eq_true_1 in E.
Qed.

Lemma read_csv_length f usecols d :
  read_csv f usecols = Ok d → length d = length (records f).
Proof.
  unfold read_csv. destruct (forallb _ usecols); [|done].
  intros [= <-]. by rewrite length_fmap.
Qed.

Lemma usecols_row_lookup (usecols : list string) (rec : Row) c :
  is_Some ((list_to_map ((λ c, (c, cell c rec)) <$> usecols) : Row) !! c)
  ↔ c ∈ usecols.
Proof.
  rewrite <- elem_of_dom, dom_list_to_map_L, elem_of_list_to_set.
  rewrite <- list_fmap_compose. cbn. by rewrite list_fmap_id.
Qed.

Lemma rmapM_Abort {A B} (f : A → result B) (l : list A) s :
  rmapM f l = Abort s → ∃ a, a ∈ l ∧ f a = Abort s.
Proof.
  induction l as [|a l IH]; cbn; [done|].
  destruct (f a) as [b|s'] eqn:Ea; cbn.
  - destruct (rmapM f l) as [bs|s'] eqn:El; cbn; [done|].
    intros [= <-]. destruct IH as (a' & ? & ?); [done|].
    exists a'. split; [by right | done].
  - intros [= <-]. exists a. split; [left | done].
Qed.

Lemma rmapM_fails {A B} (f : A → result B) (l : list A) a s :
  a ∈ l → f a = Abort s → ∃ s', rmapM f l = Abort s'.
Proof.
  intros Ha Hf. destruct (rmapM f l) as [bs|s'] eqn:E; [|eauto].
  apply rmapM_Forall2 in E. apply list_elem_of_lookup in Ha as [i Hi].
  destruct (Forall2_lookup_l _ _ _ _ _ E Hi) as (b & _ & Hb). congruence.
Qed.

Section LoadFacts.

Variable parse_datetime : string → option Timestamp.

Lemma to_datetime_cell_Abort v s :
  to_datetime_cell parse_datetime v = Abort s → ∃ e, s = Exception e.
Proof.
  destruct v as [|t|z|b|q|t]; cbn; try done;
    try (intros [= <-]; eauto).
  destruct (parse_datetime t); [done|]. intros [= <-]. eauto.
Qed.

(** A loaded table has the eight columns read from the CSV and the three
    derived ones, and no other: any further column of the CSV is gone. *)
Theorem loaded_table_columns fs year df r c :
  load_data parse_datetime fs year = Ok (Some df) → r ∈ df →
  (is_Some (r !! c) ↔ c ∈ loaded_columns).
Proof.
  intros (p & z & name & _ & _ & _ & Hm)%load_data_member Hr.
  destruct (read_member_rows _ _ _ _ _ Hm Hr)
    as (f & raw_df & raw & d & _ & Hcsv & Hraw & _ & ->).
  destruct (read_csv_rows _ _ _ _ Hcsv Hraw) as (_ & rec & _ & ->).
  rewrite !lookup_insert_is_Some, usecols_row_lookup.
  unfold loaded_columns. rewrite elem_of_app, !elem_of_cons, elem_of_nil.
  assert ("Date" ∈ cols) by (unfold cols; set_solver).
  split.
  - intros [<- | [_ [<- | [_ [<- | [_ [<- | [_ ?]]]]]]]]; auto 10.
  - destruct (decide ("DayOfWeek" = c)); [by left|].
    destruct (decide ("Hour" = c)); [by right; split; [|left]|].
    destruct (decide ("Month_Num" = c)); [by right; split; [|right; split; [|left]]|].
    destruct (decide ("Date" = c)) as [<-|];
      [by right; split; [|right; split; [|right; split; [|left]]]|].
    intros [? | [? | [? | [? | []]]]]; try congruence.
    right; split; [done|]. right; split; [done|]. right; split; [done|].
    right; split; done.
Qed.

(** A loaded table has one row per record of the CSV member that was
    read: parsing the dates and adding columns neither drops nor adds a
    row. *)
Theorem loaded_table_row_count fs year df :
  load_data parse_datetime fs year = Ok (Some df) →
  ∃ p z name f,
    found_path (locate fs year) = Some p ∧ fs !! p = Some (Zip z) ∧
    member_read z = Some name ∧ z_open z name = Ok f ∧
    length df = length (records f).
Proof.
  intros (p & z & name & Hp & Hz & Hn & Hm)%load_data_member.
  unfold read_member in Hm.
  destruct (z_open z name) as [f|] eqn:Ef; cbn in Hm; [|done].
  destruct (read_csv f cols) as [raw_df|] eqn:Er; cbn in Hm; [|done].
  destruct (parse_dates parse_datetime raw_df) as [dated|] eqn:Ed; cbn in Hm; [|done].
  injection Hm as <-. exists p, z, name, f. repeat split; try done.
  unfold derive_columns, assign. rewrite !length_fmap.
  apply rmapM_Forall2, Forall2_length in Ed.
  rewrite <- Ed. by apply read_csv_length in Er.
Qed.

(** When the first existing candidate is not a zip archive, [load_data]
    raises [BadZipFile]: it neither returns [None] nor tries the
    candidates after it. *)
Theorem load_data_not_a_zip fs year p :
  found_path (locate fs year) = Some p → fs !! p = Some NotZip →
  load_data parse_datetime fs year = raise BadZipFile.
Proof.
  intros Hp Hz. unfold load_data.
  rewrite Hp, (located_truthy _ _ _ Hp). unfold zipfile_open. by rewrite Hz.
Qed.

(** When the CSV member lacks one of the eight columns, [load_data]
    raises [ValueError]. *)
Theorem load_data_missing_column fs year p z name f c :
  found_path (locate fs year) = Some p → fs !! p = Some (Zip z) →
  member_read z = Some name → z_open z name = Ok f →
  c ∈ cols → c ∉ header f →
  load_data parse_datetime fs year =
    raise (ValueError "Usecols do not match columns").
Proof.
  intros Hp Hz Hn Hf Hc Hh. unfold load_data.
  rewrite Hp, (located_truthy _ _ _ Hp). unfold zipfile_open. rewrite Hz.
  cbn [rbind]. unfold member_read in Hn.
  destruct (csv_files z) as [|n ns]; [done|]. injection Hn as ->.
  unfold read_member. rewrite Hf. cbn [rbind]. unfold read_csv.
  destruct (forallb _ cols) eqn:E; [|done].
  rewrite forallb_forall in E.
  specialize (E c (proj1 (list_elem_of_In _ _) Hc)).
  by apply bool_decide_eq_true_1 in E.
Qed.

(** One record whose Date text is not a date makes the whole load fail
    with an exception: the record is not skipped and no table is
    returned. *)
Theorem load_data_unparseable_date fs year p z name f rec s :
  found_path (locate fs year) = Some p → fs !! p = Some (Zip z) →
  member_read z = Some name → z_open z name = Ok f →
  rec ∈ records f → rec !! "Date" = Some (Str s) → parse_datetime s = None →
  ∃ e, load_data parse_datetime fs year = raise e.
Proof.
  intros Hp Hz Hn Hf Hrec Hd Hs. unfold load_data.
  rewrite Hp, (located_truthy _ _ _ Hp). unfold zipfile_open. rewrite Hz.
  cbn [rbind]. unfold member_read in Hn.
  destruct (csv_files z) as [|n ns]; [done|]. injection Hn as ->.
  unfold read_member. rewrite Hf. cbn [rbind].
  destruct (read_csv f cols) as [raw_df|sg] eqn:Er; cbn [rbind].
  - set (raw := list_to_map ((λ c, (c, cell c rec)) <$> cols) : Row).
    assert (Hraw : raw ∈ raw_df).
    { unfold read_csv in Er. destruct (forallb _ cols); [|done].
      injection Er as <-. apply list_elem_of_fmap. by exists rec. }
    assert (Hcell : cell "Date" raw = Str s).
    { unfold cell at 1. subst raw. unfold cols. cbn.
      lookup_inserts. unfold cell. by rewrite Hd. }
    destruct (rmapM_fails
                (λ r, rbind (to_datetime_cell parse_datetime (cell "Date" r))
                            (λ d, Ok (<["Date" := d]> r)))
                raw_df raw (Exception (ValueError "Unknown datetime string format"))
                Hraw) as [s' Hs'].
    { rewrite Hcell. cbn. by rewrite Hs. }
    unfold parse_dates. rewrite Hs'. cbn [rbind].
    apply rmapM_Abort in Hs' as (a & _ & Ha).
    destruct (to_datetime_cell parse_datetime (cell "Date" a)) as [d|s''] eqn:Ec;
      cbn in Ha; [done|]. injection Ha as <-.
    apply to_datetime_cell_Abort in Ec as [e ->]. by exists e.
  - unfold read_csv in Er. destruct (forallb _ cols); [done|].
    injection Er as <-. eauto.
Qed.

End LoadFacts.

(** The sample CSV has an ID column; the loaded rows do not. *)
Lemma loaded_table_columns_witness :
  load_data Sample.parse Sample.disk 2024 = Ok (Some Sample.table) ∧
  Sample.loaded_theft ∈ Sample.table ∧
  (is_Some (Sample.loaded_theft !! "ID") ↔ "ID" ∈ loaded_columns) ∧
  (is_Some (Sample.loaded_theft !! "Hour") ↔ "Hour" ∈ loaded_columns).
Proof.
  assert (Hl : load_data Sample.parse Sample.disk 2024 = Ok (Some Sample.table))
    by (by vm_compute).
  assert (Hr : Sample.loaded_theft ∈ Sample.table) by apply list_elem_of_here.
  split; [exact Hl|]. split; [exact Hr|]. split.
  - exact (loaded_table_columns Sample.parse Sample.disk 2024 Sample.table
             Sample.loaded_theft "ID" Hl Hr).
  - exact (loaded_table_columns Sample.parse Sample.disk 2024 Sample.table
             Sample.loaded_theft "Hour" Hl Hr).
Defined.

Lemma loaded_table_row_count_witness :
  load_data Sample.parse Sample.disk 2024 = Ok (Some Sample.table) ∧
  ∃ p z name f,
    found_path (locate Sample.disk 2024) = Some p ∧
    Sample.disk !! p = Some (Zip z) ∧
    member_read z = Some name ∧ z_open z name = Ok f ∧
    length Sample.table = length (records f).
Proof.
  assert (Hl : load_data Sample.parse Sample.disk 2024 = Ok (Some Sample.table))
    by (by vm_compute).
  split; [exact Hl|].
  exact (loaded_table_row_count Sample.parse Sample.disk 2024 Sample.table Hl).
Defined.

Lemma load_data_not_a_zip_witness :
  found_path (locate Sample.text_disk 2024) = Some "./chicago_crime_2024.zip" ∧
  Sample.text_disk !! "./chicago_crime_2024.zip" = Some NotZip ∧
  load_data Sample.parse Sample.text_disk 2024 = raise BadZipFile.
Proof.
  assert (Hp : found_path (locate Sample.text_disk 2024)
               = Some "./chicago_crime_2024.zip") by (by vm_compute).
  assert (Hz : Sample.text_disk !! "./chicago_crime_2024.zip" = Some NotZip)
    by (by vm_compute).
  split; [exact Hp|]. split; [exact Hz|].
  exact (load_data_not_a_zip Sample.parse Sample.text_disk 2024 _ Hp Hz).
Defined.

Lemma load_data_missing_column_witness :
  found_path (locate Sample.short_disk 2024) = Some "./chicago_crime_2024.zip" ∧
  Sample.short_disk !! "./chicago_crime_2024.zip" = Some (Zip Sample.short_archive) ∧
  member_read Sample.short_archive = Some "crimes.csv" ∧
  z_open Sample.short_archive "crimes.csv" = Ok Sample.short_csv ∧
  "District" ∈ cols ∧ "District" ∉ header Sample.short_csv ∧
  load_data Sample.parse Sample.short_disk 2024 =
    raise (ValueError "Usecols do not match columns").
Proof.
  assert (Hp : found_path (locate Sample.short_disk 2024)
               = Some "./chicago_crime_2024.zip") by (by vm_compute).
  assert (Hz : Sample.short_disk !! "./chicago_crime_2024.zip"
               = Some (Zip Sample.short_archive)) by (by vm_compute).
  assert (Hn : member_read Sample.short_archive = Some "crimes.csv")
    by (by vm_compute).
  assert (Hf : z_open Sample.short_archive "crimes.csv" = Ok Sample.short_csv)
    by (by vm_compute).
  assert (Hc : "District" ∈ cols) by (unfold cols; set_solver).
  assert (Hh : "District" ∉ header Sample.short_csv).
  { apply (bool_decide_unpack (_ ∉ _)). by vm_compute. }
  repeat (split; [assumption|]).
  exact (load_data_missing_column Sample.parse Sample.short_disk 2024 _ _ _ _ _
           Hp Hz Hn Hf Hc Hh).
Defined.

Lemma load_data_unparseable_date_witness :
  found_path (locate Sample.undated_disk 2024) = Some "./chicago_crime_2024.zip" ∧
  Sample.undated_disk !! "./chicago_crime_2024.zip"
    = Some (Zip Sample.undated_archive) ∧
  member_read Sample.undated_archive = Some "crimes.csv" ∧
  z_open Sample.undated_archive "crimes.csv" = Ok Sample.undated_csv ∧
  Sample.undated ∈ records Sample.undated_csv ∧
  Sample.undated !! "Date" = Some (Str "yesterday") ∧
  Sample.parse "yesterday" = None ∧
  ∃ e, load_data Sample.parse Sample.undated_disk 2024 = raise e.
Proof.
  assert (Hp : found_path (locate Sample.undated_disk 2024)
               = Some "./chicago_crime_2024.zip") by (by vm_compute).
  assert (Hz : Sample.undated_disk !! "./chicago_crime_2024.zip"
               = Some (Zip Sample.undated_archive)) by (by vm_compute).
  assert (Hn : member_read Sample.undated_archive = Some "crimes.csv")
    by (by vm_compute).
  assert (Hf : z_open Sample.undated_archive "crimes.csv" = Ok Sample.undated_csv)
    by (by vm_compute).
  assert (Hr : Sample.undated ∈ records Sample.undated_csv)
    by (cbn; set_solver).
  assert (Hd : Sample.undated !! "Date" = Some (Str "yesterday"))
    by (by vm_compute).
  assert (Hs : Sample.parse "yesterday" = None) by (by vm_compute).
  repeat (split; [assumption|]).
  exact (load_data_unparseable_date Sample.parse Sample.undated_disk 2024 _ _ _ _ _ _
           Hp Hz Hn Hf Hr Hd Hs).
Defined.
